(** * The llama_club notebooks: low-rank approximation and the RAG pipeline

    The repository holds two Jupyter notebooks.  The first one draws a random
    square matrix, decomposes it with [np.linalg.svd], rebuilds truncated
    products [U[:, :k] @ np.diag(S[:k]) @ Vt[:k, :]] and records their
    Frobenius distance to the original.  The second one chains LangChain
    calls: load documents, split them, embed and store them, answer a query.

    Both notebooks are embedded statement by statement as computations over
    a Python kernel: a namespace from variable names to dynamically typed
    values, numpy's process-wide generator and print precision, and the
    output area of the cell being run.  Exceptions are outcomes that carry
    the kernel as it was left.

    NumPy arrays are matrices over a real closed field and array arithmetic
    is exact: rounding of binary64 is outside this development.  The
    theorems therefore name a computed array by the operations that produce
    it and never speak of its numerical size, its rank or the order of two
    computed numbers.  What the notebooks import and only call
    ([np.random.rand], [np.linalg.svd], the LangChain classes) enters as
    parameters of the section. *)

From HB Require Import structures.
From Stdlib Require Import String.
From mathcomp Require Import boot order algebra field.

Set Implicit Arguments.
Unset Strict Implicit.
Unset Printing Implicit Defensive.

Import GRing.Theory Num.Theory Order.Theory.
Local Open Scope ring_scope.

(** Variable names are compared with [String.eqb]. *)
HB.instance Definition _ := hasDecEq.Build string String.eqb_spec.

(** ** Exceptions and results *)

Inductive exn : Type :=
| NameError (x : string)
| TypeError
| ValueError
| IndexError
| KeyError (key : string)
| AttributeError (attr : string)
| LibraryError (what : string).

Inductive result (T : Type) : Type :=
| Ok (x : T)
| Err (e : exn).

Arguments Ok {T} x.
Arguments Err {T} e.

Section Notebooks.

Variable R : rcfType.

(** ** Array operations on matrices

    [a[:k]] keeps the first [k] entries and clamps [k] to the length, hence
    the [minn k n] in the shapes. *)

Definition take_vec n (S : 'rV[R]_n) (k : nat) : 'rV[R]_(minn k n) :=
  \row_j S 0 (widen_ord (geq_minr k n) j).

Definition take_cols m n (U : 'M[R]_(m, n)) (k : nat) : 'M[R]_(m, minn k n) :=
  \matrix_(i, j) U i (widen_ord (geq_minr k n) j).

Definition take_rows m n (Vt : 'M[R]_(m, n)) (k : nat) : 'M[R]_(minn k m, n) :=
  \matrix_(i, j) Vt (widen_ord (geq_minr k m) i) j.

(** [np.linalg.norm(M, 'fro')]: the square root of the sum of the squared
    absolute values of the entries. *)
Definition fro_norm m n (M : 'M[R]_(m, n)) : R :=
  Num.sqrt (\sum_i \sum_j `|M i j| ^+ 2).

(** The right-hand side of [A_k = U[:, :k] @ S_k @ Vt[:k, :]] with
    [S_k = np.diag(S[:k])]. *)
Definition low_rank n (U : 'M[R]_n) (S : 'rV[R]_n) (Vt : 'M[R]_n) (k : nat)
  : 'M[R]_n :=
  take_cols U k *m diag_mx (take_vec S k) *m take_rows Vt k.

(** ** Python values, the kernel and its computations *)

(** Objects built by the libraries (loaders, splitters, embedding models,
    vector stores, chains) are opaque to the notebooks. *)
Variable obj : Type.

(** The state of numpy's global generator. *)
Variable rng_state : Type.

Inductive value : Type :=
| VNone
| VBool (b : bool)
| VInt (n : nat)
| VFloat (x : R)
| VStr (s : string)
| VFmt (parts : seq value)
| VList (vs : seq value)
| VTuple (vs : seq value)
| VDict (items : seq (string * value))
| VArr1 (n : nat) (v : 'rV[R]_n)
| VArr2 (m n : nat) (M : 'M[R]_(m, n))
| VDoc (page_content : string) (metadata : seq (string * string))
| VConst (name : string)
| VObj (o : obj).

(** An item of a cell's output area.  Text printed for an array depends on
    the print precision in force, which is recorded next to the value. *)
Inductive output : Type :=
| Printed (v : value) (precision : option nat)
| Displayed (v : value) (precision : option nat)
| Plt (f : string) (args : seq value) (kwargs : seq (string * value)).

Definition namespace := string -> option value.

Record kernel : Type := Kernel {
  ns : namespace;
  np_rng : rng_state;
  np_precision : nat;
  out : seq output
}.

Definition store (x : string) (v : value) (g : namespace) : namespace :=
  fun y => if String.eqb y x then Some v else g y.

Definition with_ns (g : namespace) (k : kernel) : kernel :=
  Kernel g (np_rng k) (np_precision k) (out k).

Definition with_rng (r : rng_state) (k : kernel) : kernel :=
  Kernel (ns k) r (np_precision k) (out k).

Definition with_precision (p : nat) (k : kernel) : kernel :=
  Kernel (ns k) (np_rng k) p (out k).

Definition with_out (o : seq output) (k : kernel) : kernel :=
  Kernel (ns k) (np_rng k) (np_precision k) o.

(** A computation either completes with a value or raises; both leave a
    kernel behind. *)
Inductive outcome (T : Type) : Type :=
| Done (x : T) (k : kernel)
| Raise (e : exn) (k : kernel).

Arguments Raise {T} e k.

Definition py (T : Type) : Type := kernel -> outcome T.

Definition ret T (x : T) : py T := fun k => Done x k.

Definition raise T (e : exn) : py T := fun k => Raise e k.

Arguments raise {T} e.

Definition bind T T' (m : py T) (f : T -> py T') : py T' :=
  fun k => match m k with
           | Done x k' => f x k'
           | Raise e k' => Raise e k'
           end.

Notation "x <- m ;; f" := (bind m (fun x => f))
  (at level 61, m at next level, right associativity).
Notation "m ;; f" := (bind m (fun _ => f))
  (at level 61, right associativity).

Definition kernel_of T (o : outcome T) : kernel :=
  match o with Done _ k => k | Raise _ k => k end.

Definition raised T (o : outcome T) : option exn :=
  match o with Done _ _ => None | Raise e _ => Some e end.

(** A cell starts with an empty output area. *)
Definition exec_cell (c : py unit) : py unit := fun k => c (with_out [::] k).

Definition lift T (r : result T) : py T :=
  fun k => match r with Ok x => Done x k | Err e => Raise e k end.

(** *** Expressions *)

Definition var (x : string) : py value :=
  fun k => match ns k x with
           | Some v => Done v k
           | None => Raise (NameError x) k
           end.

Definition const (v : value) : py value := ret v.

Definition call1 (f : value -> result value) (e : py value) : py value :=
  a <- e ;; lift (f a).

Definition call2 (f : value -> value -> result value) (e1 e2 : py value)
  : py value :=
  a <- e1 ;; b <- e2 ;; lift (f a b).

Definition call3 (f : value -> value -> value -> result value)
  (e1 e2 e3 : py value) : py value :=
  a <- e1 ;; b <- e2 ;; c <- e3 ;; lift (f a b c).

Definition call4 (f : value -> value -> value -> value -> result value)
  (e1 e2 e3 e4 : py value) : py value :=
  a <- e1 ;; b <- e2 ;; c <- e3 ;; d <- e4 ;; lift (f a b c d).

Definition call5
  (f : value -> value -> value -> value -> value -> result value)
  (e1 e2 e3 e4 e5 : py value) : py value :=
  a <- e1 ;; b <- e2 ;; c <- e3 ;; d <- e4 ;; e <- e5 ;; lift (f a b c d e).

Fixpoint eval_all (es : seq (py value)) : py (seq value) :=
  match es with
  | [::] => ret [::]
  | e :: es' => v <- e ;; vs <- eval_all es' ;; ret (v :: vs)
  end.

Fixpoint eval_items (es : seq (string * py value))
  : py (seq (string * value)) :=
  match es with
  | [::] => ret [::]
  | (key, e) :: es' => v <- e ;; vs <- eval_items es' ;; ret ((key, v) :: vs)
  end.

(** [[e1, ..., en]], [f"..."] and [{"key": e, ...}] (also [dict(key=e, ...)]). *)
Definition list_of (es : seq (py value)) : py value :=
  vs <- eval_all es ;; ret (VList vs).

Definition fstring (es : seq (py value)) : py value :=
  vs <- eval_all es ;; ret (VFmt vs).

Definition dict_of (es : seq (string * py value)) : py value :=
  kvs <- eval_items es ;; ret (VDict kvs).

(** [list(range(a, b))] *)
Definition list_range (a b : nat) : value :=
  VList [seq VInt i | i <- iota a (b - a)].

(** [e[i]] with a literal index, [e["key"]], [e.attr], [e[:n]] and [e[a:b]]
    on strings and lists. *)
Definition getitem (i : nat) (a : value) : result value :=
  match a with
  | VList vs | VTuple vs =>
      if (i < size vs)%N then Ok (nth VNone vs i) else Err IndexError
  | _ => Err TypeError
  end.

Fixpoint lookup_key (key : string) (kvs : seq (string * value))
  : option value :=
  match kvs with
  | [::] => None
  | (key', v) :: kvs' =>
      if String.eqb key key' then Some v else lookup_key key kvs'
  end.

Definition getkey (key : string) (a : value) : result value :=
  match a with
  | VDict kvs =>
      if lookup_key key kvs is Some v then Ok v else Err (KeyError key)
  | _ => Err TypeError
  end.

Definition page_content_of (a : value) : result value :=
  match a with
  | VDoc text _ => Ok (VStr text)
  | _ => Err (AttributeError "page_content")
  end.

(** A Python string is held as its UTF-8 encoding, which is how the
    literals of this file are read.  A character is a byte that is not a
    continuation byte (of the form 10xxxxxx) together with the continuation
    bytes that follow it: [len], [s[:n]] and [s[n:]] count characters, not
    bytes. *)
Definition continuation (c : Ascii.ascii) : bool :=
  let: Ascii.Ascii _ _ _ _ _ _ b6 b7 := c in b7 && ~~ b6.

Fixpoint str_len (s : string) : nat :=
  match s with
  | EmptyString => 0
  | String c s' => (~~ continuation c) + str_len s'
  end.

Fixpoint str_take (n : nat) (s : string) : string :=
  match s with
  | EmptyString => EmptyString
  | String c s' =>
      if continuation c then String c (str_take n s')
      else if n is n'.+1 then String c (str_take n' s') else EmptyString
  end.

Fixpoint str_drop (n : nat) (s : string) : string :=
  match s with
  | EmptyString => EmptyString
  | String c s' =>
      if continuation c then str_drop n s'
      else if n is n'.+1 then str_drop n' s' else s
  end.

(** [s[a:b]] *)
Definition str_slice (a b : nat) (s : string) : string :=
  str_take (b - a) (if a is 0 then s else str_drop a s).

Definition getslice (a b : nat) (v : value) : result value :=
  match v with
  | VStr s => Ok (VStr (str_slice a b s))
  | VList vs => Ok (VList (take (b - a) (drop a vs)))
  | _ => Err TypeError
  end.

(** *** NumPy on values

    Only the shapes the notebooks feed to an operation are given a result;
    the others are rejected with the exception NumPy would raise for a
    wrong rank or for mismatched shapes. *)

(** [S[:k]] *)
Definition slice_vec (a k : value) : result value :=
  match a, k with
  | VArr1 n v, VInt j => Ok (VArr1 (take_vec v j))
  | _, _ => Err TypeError
  end.

(** [U[:, :k]] *)
Definition slice_cols (a k : value) : result value :=
  match a, k with
  | VArr2 m n M, VInt j => Ok (VArr2 (take_cols M j))
  | _, _ => Err TypeError
  end.

(** [Vt[:k, :]] *)
Definition slice_rows (a k : value) : result value :=
  match a, k with
  | VArr2 m n M, VInt j => Ok (VArr2 (take_rows M j))
  | _, _ => Err TypeError
  end.

Definition np_diag (a : value) : result value :=
  match a with
  | VArr1 n v => Ok (VArr2 (diag_mx v))
  | _ => Err ValueError
  end.

(** [a @ b] *)
Definition matmul (a b : value) : result value :=
  match a, b with
  | VArr2 m n A, VArr2 n' p B =>
      if n =P n' is ReflectT e
      then Ok (VArr2 (A *m castmx (esym e, erefl p) B))
      else Err ValueError
  | _, _ => Err TypeError
  end.

(** [a - b] *)
Definition np_sub (a b : value) : result value :=
  match a, b with
  | VArr2 m n A, VArr2 m' n' B =>
      if m =P m' is ReflectT em then
        if n =P n' is ReflectT en
        then Ok (VArr2 (A - castmx (esym em, esym en) B))
        else Err ValueError
      else Err ValueError
  | _, _ => Err TypeError
  end.

(** [np.linalg.norm(a, ord)] *)
Definition np_linalg_norm (ord : string) (a : value) : result value :=
  match a with
  | VArr2 m n M =>
      if String.eqb ord "fro" then Ok (VFloat (fro_norm M)) else Err ValueError
  | _ => Err ValueError
  end.

(** What NumPy does inside: seeding the generator, drawing a matrix from
    it, and the decomposition (which fails when it does not converge). *)
Variable seed_state : nat -> rng_state.
Variable draw : forall m n : nat, rng_state -> 'M[R]_(m, n) * rng_state.
Variable svd : forall m n : nat,
  'M[R]_(m, n) -> result ('M[R]_m * 'rV[R]_(minn m n) * 'M[R]_n).

Definition np_random_seed (s : nat) : py unit :=
  fun k => Done tt (with_rng (seed_state s) k).

Definition np_random_rand (m n : nat) : py value :=
  fun k => let: (A, g) := draw m n (np_rng k) in Done (VArr2 A) (with_rng g k).

Definition np_linalg_svd (a : value) : result value :=
  match a with
  | VArr2 m n A =>
      match svd A with
      | Ok (U, s, Vt) => Ok (VTuple [:: VArr2 U; VArr1 s; VArr2 Vt])
      | Err e => Err e
      end
  | _ => Err (LibraryError "LinAlgError")
  end.

Definition np_set_printoptions (precision : nat) : py unit :=
  fun k => Done tt (with_precision precision k).

(** *** Statements *)

Definition set_name (x : string) (v : value) : py unit :=
  fun k => Done tt (with_ns (store x v (ns k)) k).

(** [x = e] *)
Definition assign (x : string) (e : py value) : py unit :=
  v <- e ;; set_name x v.

Notation "x ::= e" := (assign x e) (at level 60, no associativity).

(** [x, y, z = e] *)
Definition unpack3 (x y z : string) (e : py value) : py unit :=
  v <- e ;;
  match v with
  | VTuple [:: a; b; c] => x ::= const a ;; y ::= const b ;; z ::= const c
  | VTuple _ => raise ValueError
  | _ => raise TypeError
  end.

Fixpoint iterate (x : string) (vs : seq value) (body : py unit) : py unit :=
  match vs with
  | [::] => ret tt
  | v :: vs' => x ::= const v ;; body ;; iterate x vs' body
  end.

(** [for x in e: body] *)
Definition for_in (x : string) (e : py value) (body : py unit) : py unit :=
  v <- e ;;
  match v with
  | VList vs => iterate x vs body
  | _ => raise TypeError
  end.

(** [x.append(e)]: the list is reached through the name [x] only. *)
Definition append (x : string) (e : py value) : py unit :=
  l <- var x ;; v <- e ;;
  match l with
  | VList vs => x ::= const (VList (rcons vs v))
  | _ => raise (AttributeError "append")
  end.

(** The print precision that the text of [v] depends on, if any. *)
Definition array_precision (v : value) (p : nat) : option nat :=
  match v with
  | VArr1 _ _ | VArr2 _ _ _ => Some p
  | _ => None
  end.

Definition precision_for (v : value) : py (option nat) :=
  fun k => Done (array_precision v (np_precision k)) k.

Definition emit (o : output) : py unit :=
  fun k => Done tt (with_out (rcons (out k) o) k).

Definition print (e : py value) : py unit :=
  v <- e ;; p <- precision_for v ;; emit (Printed v p).

(** The value of a cell's last expression is shown below the cell. *)
Definition display (e : py value) : py unit :=
  v <- e ;; p <- precision_for v ;; emit (Displayed v p).

Definition plt (f : string) (args : seq (py value))
  (kwargs : seq (string * py value)) : py unit :=
  vs <- eval_all args ;; kvs <- eval_items kwargs ;; emit (Plt f vs kvs).

(** ** The low-rank notebook

    The [import] cell binds [np] and [plt], which the other cells use only
    as prefixes of the calls above; it is not a computation of its own
    here. *)

Local Open Scope string_scope.

Definition newline : string := String (Ascii.ascii_of_nat 10) EmptyString.

Definition body_svd5 : py unit :=
  "S_k" ::= call1 np_diag (call2 slice_vec (var "S") (var "k")) ;;
  "A_k" ::= call2 matmul
              (call2 matmul (call2 slice_cols (var "U") (var "k")) (var "S_k"))
              (call2 slice_rows (var "Vt") (var "k")) ;;
  print (fstring [:: const (VStr "Rank "); var "k";
                     const (VStr " approximation:")]) ;;
  print (var "A_k") ;;
  print (const (VStr newline)).

Definition loop_svd5 : py unit :=
  for_in "k" (const (VList [:: VInt 1; VInt 3])) body_svd5.

Definition cell_svd5 : py unit :=
  np_random_seed 0 ;;
  "A" ::= np_random_rand 5 5 ;;
  print (const (VStr "full-rank = Original Matrix A:")) ;;
  print (var "A") ;;
  print (const (VStr newline)) ;;
  unpack3 "U" "S" "Vt" (call1 np_linalg_svd (var "A")) ;;
  np_set_printoptions 2 ;;
  loop_svd5.

Definition body_svd10 : py unit :=
  "S_k" ::= call1 np_diag (call2 slice_vec (var "S") (var "k")) ;;
  "A_k" ::= call2 matmul
              (call2 matmul (call2 slice_cols (var "U") (var "k")) (var "S_k"))
              (call2 slice_rows (var "Vt") (var "k")) ;;
  "error" ::= call1 (np_linalg_norm "fro")
                (call2 np_sub (var "A") (var "A_k")) ;;
  append "errors" (var "error").

Definition loop_svd10 : py unit := for_in "k" (var "ranks") body_svd10.

Definition cell_svd10 : py unit :=
  np_random_seed 0 ;;
  "A" ::= np_random_rand 10 10 ;;
  unpack3 "U" "S" "Vt" (call1 np_linalg_svd (var "A")) ;;
  "errors" ::= const (VList [::]) ;;
  "ranks" ::= const (list_range 1 11) ;;
  loop_svd10 ;;
  plt "figure" [::] [:: ("figsize", const (VTuple [:: VInt 5; VInt 3]))] ;;
  plt "plot" [:: var "ranks"; var "errors"] [:: ("marker", const (VStr "o"))] ;;
  plt "title" [:: const (VStr "Error of Low Rank Approximations")] [::] ;;
  plt "xlabel" [:: const (VStr "Rank k")] [::] ;;
  plt "ylabel" [:: const (VStr "Frobenius Norm of the Error")] [::] ;;
  plt "grid" [:: const (VBool true)] [::] ;;
  plt "show" [::] [::].

Definition rank_notebook : seq (py unit) := [:: cell_svd5; cell_svd10].

(** The names the notebook binds: by assignment, and by [import]. *)
Definition rank_names : seq string :=
  [:: "A"; "U"; "S"; "Vt"; "k"; "S_k"; "A_k"; "error"; "errors"; "ranks"].


(** ** The RAG notebook

    Every LangChain, HuggingFace and scikit-learn entry point the notebook
    calls, keyword arguments in the order of the call.  A method takes its
    object first: [load loader] is [loader.load()], [as_retriever db kwargs]
    is [db.as_retriever(search_kwargs=kwargs)], and [RetrievalQA_call chain
    inputs] is the call [qa_chain(inputs)].  Each of them may raise. *)

Record langchain : Type := Langchain {
  PyPDFLoader : value -> result value;
  YoutubeAudioLoader : value -> value -> result value;
  OpenAIWhisperParser : result value;
  GenericLoader : value -> value -> result value;
  WebBaseLoader : value -> result value;
  load : value -> result value;
  RecursiveCharacterTextSplitter : value -> value -> result value;
  split_documents : value -> value -> result value;
  HuggingFaceEmbeddings : value -> value -> value -> result value;
  embed_query : value -> value -> result value;
  cosine_similarity : value -> value -> result value;
  Chroma_from_documents : value -> value -> result value;
  similarity_search_with_score : value -> value -> result value;
  BitsAndBytesConfig : value -> result value;
  HuggingFacePipeline_from_model_id :
    value -> value -> value -> value -> result value;
  PromptTemplate : value -> value -> result value;
  as_retriever : value -> value -> result value;
  RetrievalQA_from_chain_type :
    value -> value -> value -> value -> value -> result value;
  RetrievalQA_call : value -> value -> result value
}.

Variable lc : langchain.

Definition cell_pdf : py unit :=
  "fiel_dir" ::= const (VStr "PDF_DIRECTORY") ;;
  "loader" ::= call1 (PyPDFLoader lc) (var "fiel_dir") ;;
  "pages" ::= call1 (load lc) (var "loader").

Definition youtube_url : string :=
  "https://www.youtube.com/watch?v=jGwO_UgTS7I".

Definition cell_youtube : py unit :=
  "url" ::= const (VStr youtube_url) ;;
  "save_dir" ::= const (VStr "docs/youtube/") ;;
  "loader" ::= call2 (GenericLoader lc)
                 (call2 (YoutubeAudioLoader lc) (list_of [:: var "url"])
                    (var "save_dir"))
                 (lift (OpenAIWhisperParser lc)) ;;
  "video_docs" ::= call1 (load lc) (var "loader") ;;
  display (call1 (getslice 0 500)
             (call1 page_content_of (call1 (getitem 0) (var "video_docs")))).

Definition news_url : string :=
  "https://www.bnext.com.tw/article/76864/what-is-the-meaning-of-llm".

Definition cell_web : py unit :=
  "url" ::= const (VStr news_url) ;;
  "loader" ::= call1 (WebBaseLoader lc) (var "url") ;;
  "news_docs" ::= call1 (load lc) (var "loader") ;;
  display (call1 (getslice 0 100)
             (call1 page_content_of (call1 (getitem 0) (var "news_docs")))).

Definition cell_split : py unit :=
  "text_splitter" ::= call2 (RecursiveCharacterTextSplitter lc)
                        (const (VInt 200)) (const (VInt 30)) ;;
  "texts_chunks" ::= call2 (split_documents lc)
                       (var "text_splitter") (var "news_docs").

Definition embedding_model : string := "infgrad/stella-base-zh-v3-1792d".

Definition cell_embed : py unit :=
  "embedding_func" ::= call3 (HuggingFaceEmbeddings lc)
    (const (VStr embedding_model))
    (const (VDict [:: ("device", VStr "cuda")]))
    (const (VDict [:: ("normalize_embeddings", VBool true)])) ;;
  "a" ::= call2 (embed_query lc) (var "embedding_func") (const (VStr
    "突襲式發表！蘋果推 2 款 M3 MacBook Air，強調 AI 、遊戲效能皆強化")) ;;
  "b" ::= call2 (embed_query lc) (var "embedding_func") (const (VStr
    "蘋果最新M3版MacBook Air突襲登場！6亮點下放1技術不漲價 M2版還降3000元")) ;;
  display (call2 (cosine_similarity lc)
             (list_of [:: var "a"]) (list_of [:: var "b"])).

Definition query_text : string := "什麼是 LLM 模型？".

Definition cell_store : py unit :=
  "db" ::= call2 (Chroma_from_documents lc)
             (var "texts_chunks") (var "embedding_func") ;;
  "query" ::= const (VStr query_text) ;;
  "docs" ::= call2 (similarity_search_with_score lc) (var "db") (var "query") ;;
  display (call1 (getitem 0) (var "docs")).

Definition template_text : string :=
"
<s>
請你做為一個大型語言模型的專家，並根據下方所提供的資訊，來回答使用者的提問。

[INST]
{context}

{question}
[/INST]
".

Definition model_name : string := "MediaTek-Research/Breeze-7B-Instruct-v0_1".

Definition quantization_kwargs : value :=
  VDict [:: ("load_in_4bit", VBool true);
            ("bnb_4bit_compute_dtype", VConst "torch.float16");
            ("bnb_4bit_quant_type", VStr "nf4");
            ("bnb_4bit_use_double_quant", VBool true)].

Definition pipeline_kwargs : value :=
  VDict [:: ("max_new_tokens", VInt 1024);
            ("temperature", VFloat (1 / 10000%:R));
            ("top_p", VFloat (95%:R / 100%:R));
            ("do_sample", VBool true);
            ("repetition_penalty", VFloat (115%:R / 100%:R))].

Definition cell_llm : py unit :=
  "MODEL_NAME" ::= const (VStr model_name) ;;
  "quantization_config" ::= call1 (BitsAndBytesConfig lc)
                              (const quantization_kwargs) ;;
  "llm" ::= call4 (HuggingFacePipeline_from_model_id lc)
    (var "MODEL_NAME")
    (const (VStr "text-generation"))
    (dict_of [:: ("torch_dtype", const (VConst "torch.float16"));
                 ("trust_remote_code", const (VBool true));
                 ("device_map", const (VStr "auto"));
                 ("quantization_config", var "quantization_config")])
    (const pipeline_kwargs) ;;
  "template" ::= const (VStr template_text) ;;
  "prompt" ::= call2 (PromptTemplate lc) (var "template")
                 (const (VList [:: VStr "context"; VStr "question"])).

Definition cell_qa : py unit :=
  "qa_chain" ::= call5 (RetrievalQA_from_chain_type lc)
    (var "llm")
    (const (VStr "stuff"))
    (call2 (as_retriever lc) (var "db")
       (const (VDict [:: ("k", VInt 2)])))
    (const (VBool true))
    (dict_of [:: ("prompt", var "prompt")]) ;;
  "result" ::= call2 (RetrievalQA_call lc) (var "qa_chain")
                 (dict_of [:: ("query", var "query")]) ;;
  print (const (VStr "回覆：")) ;;
  print (call1 (getkey "result") (var "result")) ;;
  print (const (VStr "參考資訊：")) ;;
  print (call1 (getkey "source_documents") (var "result")).

Definition rag_notebook : seq (py unit) :=
  [:: cell_pdf; cell_youtube; cell_web; cell_split; cell_embed; cell_store;
      cell_llm; cell_qa].

Definition rag_names : seq string :=
  [:: "fiel_dir"; "loader"; "pages"; "url"; "save_dir"; "video_docs";
      "news_docs"; "text_splitter"; "texts_chunks"; "embedding_func"; "a";
      "b"; "db"; "query"; "docs"; "MODEL_NAME"; "quantization_config"; "llm";
      "template"; "prompt"; "qa_chain"; "result"].


(** Cells run top to bottom; an exception ends the run. *)
Fixpoint run_all (cells : seq (py unit)) : py unit :=
  match cells with
  | [::] => ret tt
  | c :: cells' => exec_cell c ;; run_all cells'
  end.

(** ** Values the cells are expected to leave behind *)

(** The matrix [np.random.rand(n, n)] returns right after [np.random.seed(0)]. *)
Definition drawn (n : nat) : 'M[R]_n := (draw n n (seed_state 0)).1.

(** The list [errors] after the passes for [k] in [js], and what the cell
    plots from it. *)
Definition errors_of n (A U Vt : 'M[R]_n) (S : 'rV[R]_n) (js : seq nat)
  : seq value :=
  [seq VFloat (fro_norm (A - low_rank U S Vt j)) | j <- js].

Definition plots10 (errs : seq value) : seq output :=
  [:: Plt "figure" [::] [:: ("figsize", VTuple [:: VInt 5; VInt 3])];
      Plt "plot" [:: list_range 1 11; VList errs] [:: ("marker", VStr "o")];
      Plt "title" [:: VStr "Error of Low Rank Approximations"] [::];
      Plt "xlabel" [:: VStr "Rank k"] [::];
      Plt "ylabel" [:: VStr "Frobenius Norm of the Error"] [::];
      Plt "grid" [:: VBool true] [::];
      Plt "show" [::] [::]].

(** A namespace that holds each listed value under its name. *)
Fixpoint binds (g : namespace) (xs : seq (string * value)) : Prop :=
  match xs with
  | [::] => True
  | (x, v) :: xs' => g x = Some v /\ binds g xs'
  end.

(** The matrix and its factors under their names. *)
Definition factors n (A U Vt : 'M[R]_n) (S : 'rV[R]_n)
  : seq (string * value) :=
  [:: ("A", VArr2 A); ("U", VArr2 U); ("S", VArr1 S); ("Vt", VArr2 Vt)].

(** What one pass of the 10x10 loop body assigns for [k = j]. *)
Definition pass_values n (A U Vt : 'M[R]_n) (S : 'rV[R]_n) (j : nat)
  : seq (string * value) :=
  [:: ("k", VInt j);
      ("S_k", VArr2 (diag_mx (take_vec S j)));
      ("A_k", VArr2 (low_rank U S Vt j));
      ("error", VFloat (fro_norm (A - low_rank U S Vt j)))].

(** The kernel after that pass, started in [k] with [errors = errs]. *)
Definition after_body10 n (A U Vt : 'M[R]_n) (S : 'rV[R]_n) errs j k :=
  with_ns
    (store "errors"
       (VList (rcons errs (VFloat (fro_norm (A - low_rank U S Vt j)))))
       (store "error" (VFloat (fro_norm (A - low_rank U S Vt j)))
          (store "A_k" (VArr2 (low_rank U S Vt j))
             (store "S_k" (VArr2 (diag_mx (take_vec S j))) (ns k))))) k.

(** The output area of the 5x5 cell; [p] is the print precision in force
    when the cell starts. *)
Definition rank_line (j : nat) : value :=
  VFmt [:: VStr "Rank "; VInt j; VStr " approximation:"].

Definition prints5_head (p : nat) (A : 'M[R]_5) : seq output :=
  [:: Printed (VStr "full-rank = Original Matrix A:") None;
      Printed (VArr2 A) (Some p);
      Printed (VStr newline) None].

Definition prints5 (p : nat) (A U Vt : 'M[R]_5) (S : 'rV[R]_5) : seq output :=
  (prints5_head p A ++
   [:: Printed (rank_line 1) None;
       Printed (VArr2 (low_rank U S Vt 1)) (Some 2);
       Printed (VStr newline) None;
       Printed (rank_line 3) None;
       Printed (VArr2 (low_rank U S Vt 3)) (Some 2);
       Printed (VStr newline) None])%SEQ.

(** ** Notions the theorems are stated with *)

(** [m] assigns no name outside [X]. *)
Definition writes_within (X : seq string) T (m : py T) : Prop :=
  forall k x, x \notin X -> ns (kernel_of (m k)) x = ns k x.

(** [m] leaves numpy's generator and print precision alone. *)
Definition numpy_untouched T (m : py T) : Prop :=
  forall k, np_rng (kernel_of (m k)) = np_rng k /\
            np_precision (kernel_of (m k)) = np_precision k.

(** Two kernels that hold the same values under the names of [X] and have
    the same generator state, print precision and output area. *)
Definition agree (X : seq string) (k1 k2 : kernel) : Prop :=
  [/\ forall x, x \in X -> ns k1 x = ns k2 x,
      np_rng k1 = np_rng k2,
      np_precision k1 = np_precision k2
    & out k1 = out k2].

(** Two outcomes of the same kind, with the same value or exception, whose
    kernels agree on [X]. *)
Definition same_outcome (X : seq string) T (o1 o2 : outcome T) : Prop :=
  match o1, o2 with
  | Done a1 k1, Done a2 k2 => a1 = a2 /\ agree X k1 k2
  | Raise e1 k1, Raise e2 k2 => e1 = e2 /\ agree X k1 k2
  | _, _ => False
  end.

(** [m] reads no name outside [X]: whatever else the namespace holds, the
    result, the exception, the output and the values left under [X] are
    the same. *)
Definition reads_within (X : seq string) T (m : py T) : Prop :=
  forall k1 k2, agree X k1 k2 -> same_outcome X (m k1) (m k2).

(** [m] keeps the invariant [I] of kernels. *)
Definition keeps (I : kernel -> Prop) T (m : py T) : Prop :=
  forall k, I k -> I (kernel_of (m k)).

(** A cell that stays within the names of the RAG notebook and away from
    numpy's state; a cell that stays within the names of the low-rank
    notebook. *)
Definition rag_cell_independent (c : py unit) : Prop :=
  [/\ reads_within rag_names (exec_cell c),
      writes_within rag_names (exec_cell c)
    & numpy_untouched (exec_cell c)].



(** The values an output item shows, whatever the precision of the text. *)
Definition shown (o : output) : seq value :=
  match o with
  | Printed v _ | Displayed v _ => [:: v]
  | Plt _ args kwargs => (args ++ [seq kv.2 | kv <- kwargs])%SEQ
  end.

(** What a run lets one see of the numbers: the exception if any, the
    matrix bound to [A], and every value printed or plotted. *)
Definition observed (o : outcome unit)
  : option exn * option value * seq value :=
  (raised o, ns (kernel_of o) "A",
   flatten [seq shown x | x <- out (kernel_of o)]).

(** What LangChain documents about a [RetrievalQA] chain whose retriever
    was made with [search_kwargs={"k": kmax}] and which was asked to return
    its source documents: the answer is under ["result"], the retrieved
    documents are under ["source_documents"], and there are at most [kmax]
    of them. *)
Definition retrieval_contract : Prop :=
  forall db kwargs kmax retriever llm chain_type chain_kwargs chain q res,
    as_retriever lc db (VDict kwargs) = Ok retriever ->
    lookup_key "k" kwargs = Some (VInt kmax) ->
    RetrievalQA_from_chain_type lc llm chain_type retriever (VBool true)
      chain_kwargs = Ok chain ->
    RetrievalQA_call lc chain q = Ok res ->
    exists answer docs,
      [/\ getkey "result" res = Ok answer,
          getkey "source_documents" res = Ok (VList docs)
        & (size docs <= kmax)%N].

(** The kernel after the listed assignments (latest first) in a cell that
    has shown nothing yet. *)
Definition assigned (xs : seq (string * value)) (k : kernel) : kernel :=
  with_ns (foldr (fun xv g => store xv.1 xv.2 g) (ns k) xs) (with_out [::] k).

(** Cell [c], started in [k], stops on exception [e] after exactly the
    assignments [before]. *)
Definition fails_with (c : py unit) (k : kernel) (e : exn)
  (before : seq (string * value)) : Prop :=
  exec_cell c k = Raise e (assigned before k).

(** Literal arguments of the RAG cells, named for the statements below. *)
Definition pdf_dir : string * value := ("fiel_dir", VStr "PDF_DIRECTORY").

Definition youtube_names : seq (string * value) :=
  [:: ("save_dir", VStr "docs/youtube/"); ("url", VStr youtube_url)].

Definition embedding_device : value := VDict [:: ("device", VStr "cuda")].

Definition embedding_encoding : value :=
  VDict [:: ("normalize_embeddings", VBool true)].

Definition sentence_a : value :=
  VStr "突襲式發表！蘋果推 2 款 M3 MacBook Air，強調 AI 、遊戲效能皆強化".

Definition sentence_b : value :=
  VStr "蘋果最新M3版MacBook Air突襲登場！6亮點下放1技術不漲價 M2版還降3000元".

Definition model_kwargs (config : value) : value :=
  VDict [:: ("torch_dtype", VConst "torch.float16");
            ("trust_remote_code", VBool true);
            ("device_map", VStr "auto");
            ("quantization_config", config)].

Definition prompt_variables : value :=
  VList [:: VStr "context"; VStr "question"].

(** The names assigned by the cells from the web loader on. *)
Definition pipeline_names : seq string :=
  [:: "url"; "loader"; "news_docs"; "text_splitter"; "texts_chunks";
      "embedding_func"; "a"; "b"; "db"; "query"; "docs"; "MODEL_NAME";
      "quantization_config"; "llm"; "template"; "prompt"; "qa_chain"; "result"].

Local Close Scope string_scope.

(** ** Slices that keep everything *)

(** A bound at or beyond the size leaves the arrays whole. *)
Lemma low_rank_full n (U : 'M[R]_n) S Vt k :
  (n <= k)%N -> low_rank U S Vt k = U *m diag_mx S *m Vt.
Proof.
move=> nk; apply/matrixP=> i j; rewrite /low_rank !mul_mx_diag !mxE.
rewrite [RHS](bigID (fun l : 'I_n => (l < minn k n)%N)) /=.
rewrite [X in _ + X]big1 ?addr0 => [l|].
  by rewrite (minn_idPr nk) ltn_ord.
rewrite (big_ord_narrow (geq_minr k n)) /=.
by apply: eq_bigr => l _; rewrite !mxE.
Qed.

(** ** Running the cells *)

Local Open Scope string_scope.

Arguments matmul : simpl never.
Arguments np_sub : simpl never.

Lemma storeE x v g y : store x v g y = if String.eqb y x then Some v else g y.
Proof. by []. Qed.

Lemma matmulE m n p (A : 'M[R]_(m, n)) (B : 'M[R]_(n, p)) :
  matmul (VArr2 A) (VArr2 B) = Ok (VArr2 (A *m B)).
Proof.
rewrite /matmul; case: eqP => // e.
by rewrite (eq_axiomK e) /= castmx_id.
Qed.

Lemma np_subE m n (A B : 'M[R]_(m, n)) :
  np_sub (VArr2 A) (VArr2 B) = Ok (VArr2 (A - B)).
Proof.
rewrite /np_sub; case: eqP => // em; case: eqP => // en.
by rewrite (eq_axiomK em) (eq_axiomK en) /= castmx_id.
Qed.

Ltac py_unfold :=
  rewrite /exec_cell /assign /unpack3 /for_in /append /print /display /plt
          /list_of /fstring /dict_of /call1 /call2 /call3 /call4 /call5
          /np_random_seed /np_random_rand /np_set_printoptions /emit
          /set_name /precision_for /bind /var /lift /const /ret /raise
          /with_ns /with_out /with_rng /with_precision.

Ltac py_simpl := rewrite /= ?storeE /= ?matmulE ?np_subE.

Lemma body_svd10_run n (A U Vt : 'M[R]_n) (S : 'rV[R]_n) errs j k :
  binds (ns k) (factors A U Vt S) ->
  ns k "k" = Some (VInt j) -> ns k "errors" = Some (VList errs) ->
  body_svd10 k = Done tt (after_body10 A U Vt S errs j k).
Proof.
move=> [HA [HU [HS [HVt _]]]] Hk He; rewrite /body_svd10; py_unfold.
by do ![py_simpl; rewrite ?(HA, HU, HS, HVt, Hk, He)].
Qed.

Lemma iterate_svd10 n (A U Vt : 'M[R]_n) (S : 'rV[R]_n) js errs k :
  binds (ns k) (factors A U Vt S) -> ns k "errors" = Some (VList errs) ->
  exists k',
    [/\ iterate "k" [seq VInt j | j <- js] body_svd10 k = Done tt k',
        binds (ns k') (factors A U Vt S),
        ns k' "errors" = Some (VList (errs ++ errors_of A U Vt S js)%SEQ),
        if js is j :: js' then binds (ns k') (pass_values A U Vt S (last j js'))
        else True
      & [/\ ns k' "ranks" = ns k "ranks", np_rng k' = np_rng k,
            np_precision k' = np_precision k & out k' = out k]].
Proof.
elim: js errs k => [|j js IH] errs k Hf He.
  by exists k; rewrite /= cats0.
pose k1 := with_ns (store "k" (VInt j) (ns k)) k.
have Hbody : body_svd10 k1 = Done tt (after_body10 A U Vt S errs j k1).
  by apply: body_svd10_run; rewrite /= ?storeE //; case: Hf => ? [? [? [? _]]].
have [] := IH (rcons errs (VFloat (fro_norm (A - low_rank U S Vt j))))
              (after_body10 A U Vt S errs j k1).
- by case: Hf => ? [? [? [? _]]]; rewrite /= !storeE.
- by rewrite /= !storeE.
move=> k' [Hrun Hvars Herrs Hlast Hnp]; exists k'; split=> //.
- by rewrite /= {1 2}/bind {1}/assign /bind /set_name /const /ret /= -/k1 Hbody.
- by rewrite Herrs cat_rcons.
- case: js Hrun Hlast {IH Herrs} => [[<-] _|//].
  by rewrite /= !storeE.
Qed.

Arguments loop_svd10 : simpl never.
Arguments loop_svd5 : simpl never.
Arguments list_range : simpl never.

Lemma loop_svd10_run n (A U Vt : 'M[R]_n) (S : 'rV[R]_n) j js k :
  binds (ns k) (factors A U Vt S) ->
  ns k "errors" = Some (VList [::]) ->
  ns k "ranks" = Some (VList [seq VInt i | i <- j :: js]) ->
  exists k',
    [/\ loop_svd10 k = Done tt k',
        binds (ns k') (factors A U Vt S),
        ns k' "errors" = Some (VList (errors_of A U Vt S (j :: js))),
        binds (ns k') (pass_values A U Vt S (last j js))
      & [/\ ns k' "ranks" = ns k "ranks", np_rng k' = np_rng k,
            np_precision k' = np_precision k & out k' = out k]].
Proof.
move=> Hf He Hr.
have [k' [Hrun Hvars Herrs Hlast Hnp]] := iterate_svd10 (j :: js) Hf He.
by exists k'; split=> //; rewrite /loop_svd10 /for_in /bind /var Hr.
Qed.

(** The 10x10 cell when the decomposition succeeds. *)
Lemma cell_svd10_run (U Vt : 'M[R]_10) (S : 'rV[R]_10) k :
  svd (drawn 10) = Ok (U, S, Vt) ->
  exists k',
    [/\ exec_cell cell_svd10 k = Done tt k',
        binds (ns k') (factors (drawn 10) U Vt S),
        binds (ns k')
          [:: ("ranks", list_range 1 11);
              ("errors", VList (errors_of (drawn 10) U Vt S (iota 1 10)))],
        binds (ns k') (pass_values (drawn 10) U Vt S 10)
      & out k' = plots10 (errors_of (drawn 10) U Vt S (iota 1 10))].
Proof.
case: k => g0 r0 p0 o0; rewrite /drawn /cell_svd10; py_unfold; py_simpl.
case Hdraw : (draw 10 10 (seed_state 0)) => [A g] /= Hsvd.
rewrite Hsvd; py_simpl.
set k0 := (X in loop_svd10 X).
have [] := @loop_svd10_run 10 A U Vt S 1 (iota 2 9) k0; rewrite /= ?storeE //.
case=> g1 r1 p1 o1 [-> Hf Herrs Hlast [Hranks Hrng Hprec Hout]].
rewrite /= in Hf Herrs Hlast Hranks Hrng Hprec Hout *.
do ![py_unfold; py_simpl; rewrite ?(Hranks, Herrs, Hout)].
by eexists; split; first by []; rewrite /= ?storeE ?Hranks ?Herrs.
Qed.

(** The 10x10 cell when the decomposition fails. *)
Lemma cell_svd10_fail e k :
  svd (drawn 10) = Err e ->
  exists k',
    [/\ exec_cell cell_svd10 k = Raise e k',
        ns k' "A" = Some (VArr2 (drawn 10))
      & out k' = [::]].
Proof.
case: k => g0 r0 p0 o0; rewrite /drawn /cell_svd10; py_unfold; py_simpl.
case Hdraw : (draw 10 10 (seed_state 0)) => [A g] /= Hsvd.
by rewrite Hsvd; py_simpl; eexists; split; first by []; rewrite /= ?storeE.
Qed.

(** The 5x5 cell when the decomposition succeeds. *)
Lemma cell_svd5_run (U Vt : 'M[R]_5) (S : 'rV[R]_5) k :
  svd (drawn 5) = Ok (U, S, Vt) ->
  exists k',
    [/\ exec_cell cell_svd5 k = Done tt k',
        binds (ns k') (factors (drawn 5) U Vt S),
        binds (ns k')
          [:: ("k", VInt 3);
              ("S_k", VArr2 (diag_mx (take_vec S 3)));
              ("A_k", VArr2 (low_rank U S Vt 3))],
        out k' = prints5 (np_precision k) (drawn 5) U Vt S
      & np_precision k' = 2].
Proof.
case: k => g0 r0 p0 o0.
rewrite /drawn /cell_svd5 /loop_svd5 /body_svd5; py_unfold; py_simpl.
case Hdraw : (draw 5 5 (seed_state 0)) => [A g] /= Hsvd.
rewrite Hsvd; do ![py_unfold; py_simpl].
by eexists; split; first by []; rewrite /= ?storeE.
Qed.

(** The 5x5 cell when the decomposition fails. *)
Lemma cell_svd5_fail e k :
  svd (drawn 5) = Err e ->
  exists k',
    [/\ exec_cell cell_svd5 k = Raise e k',
        ns k' "A" = Some (VArr2 (drawn 5))
      & out k' = prints5_head (np_precision k) (drawn 5)].
Proof.
case: k => g0 r0 p0 o0.
rewrite /drawn /cell_svd5 /loop_svd5 /body_svd5; py_unfold; py_simpl.
case Hdraw : (draw 5 5 (seed_state 0)) => [A g] /= Hsvd.
by rewrite Hsvd; py_simpl; eexists; split; first by []; rewrite /= ?storeE.
Qed.

(** ** The error curve of the 10x10 cell *)

(** C3. After the 10x10 cell has run, [A] is the matrix drawn after
    seeding, [ranks] is the list 1, ..., 10, and [errors] has exactly ten
    entries, the entry of index [j - 1] being the Frobenius norm of
    [A - U[:, :j] @ np.diag(S[:j]) @ Vt[:j, :]] for the factors returned by
    the decomposition of [A]. *)
Theorem cell_svd10_records_residuals (U Vt : 'M[R]_10) (S : 'rV[R]_10) k :
  svd (drawn 10) = Ok (U, S, Vt) ->
  exists k' errs,
    [/\ exec_cell cell_svd10 k = Done tt k',
        [/\ ns k' "A" = Some (VArr2 (drawn 10)),
            ns k' "ranks" =
              Some (VList [:: VInt 1; VInt 2; VInt 3; VInt 4; VInt 5; VInt 6;
                              VInt 7; VInt 8; VInt 9; VInt 10])
          & ns k' "errors" = Some (VList errs)],
        size errs = 10
      & forall j, (0 < j <= 10)%N ->
          nth VNone errs j.-1 =
          VFloat (fro_norm (drawn 10 -
            take_cols U j *m diag_mx (take_vec S j) *m take_rows Vt j))].
Proof.
move=> /(cell_svd10_run k)[k' [Hrun [HA _] [Hranks [Herrs _]] _ _]].
exists k', (errors_of (drawn 10) U Vt S (iota 1 10)); split=> //.
move=> j /andP[j0 j10]; rewrite /errors_of (nth_map 0%N) ?size_iota ?prednK //.
by rewrite nth_iota ?prednK // add1n prednK.
Qed.

(** ** What a computation may write and read *)

(** *** Invariants kept along a computation *)

Section Keeps.

Variable I : kernel -> Prop.

Local Notation keeps := (keeps I).

Lemma keeps_ret T (a : T) : keeps (ret a).
Proof. by []. Qed.

Lemma keeps_raise T e : keeps (@raise T e).
Proof. by []. Qed.

Lemma keeps_lift T (r : result T) : keeps (lift r).
Proof. by move=> k; rewrite /lift; case: r. Qed.

Lemma keeps_bind T T' (m : py T) (f : T -> py T') :
  keeps m -> (forall a, keeps (f a)) -> keeps (bind m f).
Proof.
move=> Hm Hf k Ik; have := Hm k Ik; rewrite /bind.
by case: (m k) => [a k'|e k'] //=; apply: Hf.
Qed.

Lemma keeps_var x : keeps (var x).
Proof. by move=> k; rewrite /var; case: (ns k x). Qed.

Lemma keeps_precision_for v : keeps (precision_for v).
Proof. by []. Qed.

Hypothesis I_out : forall k o, I k -> I (with_out o k).

Lemma keeps_emit o : keeps (emit o).
Proof. by move=> k; apply: I_out. Qed.

Lemma keeps_exec_cell c : keeps c -> keeps (exec_cell c).
Proof. by move=> Hc k Ik; apply/Hc/I_out. Qed.

Lemma keeps_iterate x vs body :
  (forall v, keeps (set_name x v)) -> keeps body -> keeps (iterate x vs body).
Proof.
move=> Hx Hb; elim: vs => [|v vs IH] //=.
apply: keeps_bind => [|_]; last by apply: keeps_bind.
by apply: keeps_bind => // a; apply: Hx.
Qed.

Lemma keeps_for_in x e body :
  (forall v, keeps (set_name x v)) -> keeps e -> keeps body ->
  keeps (for_in x e body).
Proof.
move=> Hx He Hb; apply: keeps_bind => // v.
case: v => [|?|?|?|?|?|vs|?|?|? ?|? ? ?|? ?|?|?]; try exact: keeps_raise.
exact: keeps_iterate.
Qed.

Lemma keeps_unpack3 x y z e :
  (forall v, keeps (set_name x v)) -> (forall v, keeps (set_name y v)) ->
  (forall v, keeps (set_name z v)) -> keeps e -> keeps (unpack3 x y z e).
Proof.
move=> Hx Hy Hz He; apply: keeps_bind => // v.
case: v => [|?|?|?|?|?|?|vs|?|? ?|? ? ?|? ?|?|?]; try exact: keeps_raise.
case: vs => [|a [|b [|c [|d vs]]]]; try exact: keeps_raise.
by do !(apply: keeps_bind => [|?] //).
Qed.

Lemma keeps_append x e :
  (forall v, keeps (set_name x v)) -> keeps e -> keeps (append x e).
Proof.
move=> Hx He; apply: keeps_bind => [|l]; first exact: keeps_var.
apply: keeps_bind => // v.
case: l => [|?|?|?|?|?|vs|?|?|? ?|? ? ?|? ?|?|?]; try exact: keeps_raise.
by apply: keeps_bind.
Qed.

End Keeps.

Lemma keeps_frame_set (X : seq string) k0 x v :
  x \in X ->
  keeps (fun k => forall y, y \notin X -> ns k y = ns k0 y) (set_name x v).
Proof.
move=> Hx k Ik y Hy; rewrite /= storeE -(Ik y Hy).
by case: (String.eqb_spec y x) Hy => // ->; rewrite Hx.
Qed.

Lemma keeps_frame_other (X : seq string) k0 T (m : py T) :
  (forall k, ns (kernel_of (m k)) = ns k) ->
  keeps (fun k => forall y, y \notin X -> ns k y = ns k0 y) m.
Proof. by move=> Hm k Ik y Hy; rewrite Hm Ik. Qed.

Lemma ns_np_random_rand m n k :
  ns (kernel_of (np_random_rand m n k)) = ns k.
Proof. by rewrite /np_random_rand; case: (draw _ _ _). Qed.

Lemma keeps_numpy_set r p x v :
  keeps (fun k => np_rng k = r /\ np_precision k = p) (set_name x v).
Proof. by []. Qed.

Lemma writes_withinP (X : seq string) T (m : py T) :
  (forall k0, keeps (fun k => forall y, y \notin X -> ns k y = ns k0 y) m) ->
  writes_within X m.
Proof. by move=> Hm k x Hx; apply: (Hm k k). Qed.

Lemma numpy_untouchedP T (m : py T) :
  (forall r p, keeps (fun k => np_rng k = r /\ np_precision k = p) m) ->
  numpy_untouched m.
Proof. by move=> Hm k; apply: (Hm _ _ k). Qed.

Ltac keeps_unfold :=
  rewrite /assign /call1 /call2 /call3 /call4 /call5 /list_of /fstring
          /dict_of /print /display /plt /const /=.

Ltac keeps_frame :=
  keeps_unfold;
  repeat first
    [ apply: keeps_ret | apply: keeps_raise | apply: keeps_lift
    | apply: keeps_var | apply: keeps_precision_for
    | apply: keeps_unpack3 => [?|?|?|]
    | apply: keeps_for_in => [?||]
    | apply: keeps_append => [?|]
    | apply: keeps_exec_cell => [//|]
    | apply: keeps_bind => [|?]
    | by apply: keeps_emit
    | by apply: keeps_frame_set
    | by apply: keeps_frame_other => ?; rewrite ?ns_np_random_rand ].

Lemma writes_loop_svd5 : writes_within [:: "k"; "S_k"; "A_k"] loop_svd5.
Proof.
apply: writes_withinP => k0; rewrite /loop_svd5 /body_svd5.
by keeps_frame.
Qed.

Lemma writes_loop_svd10 :
  writes_within [:: "k"; "S_k"; "A_k"; "error"; "errors"] loop_svd10.
Proof.
apply: writes_withinP => k0; rewrite /loop_svd10 /body_svd10.
by keeps_frame.
Qed.

Lemma writes_cell_svd5 : writes_within rank_names (exec_cell cell_svd5).
Proof.
apply: writes_withinP => k0; rewrite /cell_svd5 /loop_svd5 /body_svd5.
by keeps_frame.
Qed.

Lemma writes_cell_svd10 : writes_within rank_names (exec_cell cell_svd10).
Proof.
apply: writes_withinP => k0; rewrite /cell_svd10 /loop_svd10 /body_svd10.
by keeps_frame.
Qed.

(** *** Reading within a set of names *)

Section Reads.

Variable X : seq string.

Lemma reads_ret T (a : T) : reads_within X (ret a).
Proof. by []. Qed.

Lemma reads_raise T e : reads_within X (@raise T e).
Proof. by []. Qed.

Lemma reads_lift T (r : result T) : reads_within X (lift r).
Proof. by move=> k1 k2 Hk; rewrite /lift; case: r. Qed.

Lemma reads_bind T T' (m : py T) (f : T -> py T') :
  reads_within X m -> (forall a, reads_within X (f a)) ->
  reads_within X (bind m f).
Proof.
move=> Hm Hf k1 k2 Hk; have := Hm k1 k2 Hk; rewrite /bind.
case: (m k1) => [a1 k1'|e1 k1']; case: (m k2) => [a2 k2'|e2 k2'] //=.
by case=> -> Hk'; apply: Hf.
Qed.

Lemma reads_var x : x \in X -> reads_within X (var x).
Proof.
move=> Hx k1 k2 Hk; rewrite /var; case: (Hk) => /(_ x Hx) -> _ _ _.
by case: (ns k2 x).
Qed.

Lemma reads_precision_for v : reads_within X (precision_for v).
Proof. by move=> k1 k2 Hk; rewrite /precision_for; case: (Hk) => _ _ -> _. Qed.

Lemma reads_set_name x v : reads_within X (set_name x v).
Proof.
move=> k1 k2 [Hns Hr Hp Ho]; split=> //; split=> // y Hy /=.
by rewrite !storeE Hns.
Qed.

Lemma reads_emit o : reads_within X (emit o).
Proof. by move=> k1 k2 [Hns Hr Hp Ho]; split=> //; split=> //=; rewrite Ho. Qed.

Lemma reads_exec_cell c : reads_within X c -> reads_within X (exec_cell c).
Proof. by move=> Hc k1 k2 [Hns Hr Hp Ho]; apply: Hc; split. Qed.

Lemma reads_np_random_seed s : reads_within X (np_random_seed s).
Proof. by move=> k1 k2 [Hns Hr Hp Ho]; split=> //; split. Qed.

Lemma reads_np_random_rand m n : reads_within X (np_random_rand m n).
Proof.
move=> k1 k2 [Hns Hr Hp Ho]; rewrite /np_random_rand Hr.
by case: (draw _ _ _) => A g; split=> //; split.
Qed.

Lemma reads_np_set_printoptions p : reads_within X (np_set_printoptions p).
Proof. by move=> k1 k2 [Hns Hr Hp Ho]; split=> //; split. Qed.

Lemma reads_iterate x vs body :
  reads_within X body -> reads_within X (iterate x vs body).
Proof.
move=> Hb; elim: vs => [|v vs IH] //=.
apply: reads_bind => [|_]; last by apply: reads_bind.
by apply: reads_bind => // a; apply: reads_set_name.
Qed.

Lemma reads_for_in x e body :
  reads_within X e -> reads_within X body -> reads_within X (for_in x e body).
Proof.
move=> He Hb; apply: reads_bind => // v.
case: v => [|?|?|?|?|?|vs|?|?|? ?|? ? ?|? ?|?|?]; try exact: reads_raise.
exact: reads_iterate.
Qed.

Lemma reads_unpack3 x y z e :
  reads_within X e -> reads_within X (unpack3 x y z e).
Proof.
move=> He; apply: reads_bind => // v.
case: v => [|?|?|?|?|?|?|vs|?|? ?|? ? ?|? ?|?|?]; try exact: reads_raise.
case: vs => [|a [|b [|c [|d vs]]]]; try exact: reads_raise.
by do !(apply: reads_bind => [|?] //); apply: reads_set_name.
Qed.

Lemma reads_append x e :
  x \in X -> reads_within X e -> reads_within X (append x e).
Proof.
move=> Hx He; apply: reads_bind => [|l]; first exact: reads_var.
apply: reads_bind => // v.
case: l => [|?|?|?|?|?|vs|?|?|? ?|? ? ?|? ?|?|?]; try exact: reads_raise.
by apply: reads_bind => // ?; apply: reads_set_name.
Qed.

End Reads.

Ltac reads_tac :=
  keeps_unfold;
  repeat first
    [ apply: reads_ret | apply: reads_raise | apply: reads_lift
    | by apply: reads_var
    | apply: reads_precision_for | apply: reads_set_name | apply: reads_emit
    | apply: reads_np_random_seed | apply: reads_np_random_rand
    | apply: reads_np_set_printoptions
    | apply: reads_unpack3
    | apply: reads_for_in
    | apply: reads_append => [//|]
    | apply: reads_exec_cell
    | apply: reads_bind => [|?] ].

Ltac keeps_numpy :=
  keeps_unfold;
  repeat first
    [ apply: keeps_ret | apply: keeps_raise | apply: keeps_lift
    | apply: keeps_var | apply: keeps_precision_for
    | apply: keeps_exec_cell => [//|]
    | apply: keeps_bind => [|?]
    | by apply: keeps_emit
    | by apply: keeps_numpy_set ].



Ltac rag_cell :=
  split;
  [ by reads_tac
  | by apply: writes_withinP => k0; keeps_frame
  | by apply: numpy_untouchedP => r p; keeps_numpy ].

Lemma independent_cell_pdf : rag_cell_independent cell_pdf.
Proof. by rewrite /cell_pdf; rag_cell. Qed.

Lemma independent_cell_youtube : rag_cell_independent cell_youtube.
Proof. by rewrite /cell_youtube; rag_cell. Qed.







(** ** The loops leave the factors alone *)

(** C9. Whatever the kernel holds when either approximation loop starts,
    the values bound to [A], [U], [S] and [Vt] when it stops (normally or
    on an exception) are the ones bound when it started. *)
Theorem loops_leave_factors_unchanged k :
  [/\ ns (kernel_of (loop_svd5 k)) "A" = ns k "A",
      ns (kernel_of (loop_svd5 k)) "U" = ns k "U",
      ns (kernel_of (loop_svd5 k)) "S" = ns k "S"
    & ns (kernel_of (loop_svd5 k)) "Vt" = ns k "Vt"] /\
  [/\ ns (kernel_of (loop_svd10 k)) "A" = ns k "A",
      ns (kernel_of (loop_svd10 k)) "U" = ns k "U",
      ns (kernel_of (loop_svd10 k)) "S" = ns k "S"
    & ns (kernel_of (loop_svd10 k)) "Vt" = ns k "Vt"].
Proof.
by split; split; first [exact: writes_loop_svd5 | exact: writes_loop_svd10].
Qed.

(** ** The two notebooks do not meet *)


(** ** Runs of a seeded cell agree *)

Lemma binds_agree (g1 g2 : namespace) xs :
  binds g1 xs -> binds g2 xs ->
  forall x, x \in [seq p.1 | p <- xs] -> g1 x = g2 x.
Proof.
elim: xs => [|[y v] xs IH] //= [H1 B1] [H2 B2] x.
by rewrite inE => /orP[/eqP->|]; [rewrite H1 H2 | apply: IH].
Qed.

Lemma forall_in (P : string -> Prop) (xs : seq string) :
  foldr (fun x acc => P x /\ acc) True xs -> forall x, x \in xs -> P x.
Proof.
elim: xs => [|y xs IH] //= [Py Pxs] x.
by rewrite inE => /orP[/eqP->|] //; apply: IH.
Qed.

(** C5. Two runs of the 5x5 cell, or of the 10x10 cell, started in any two
    kernels end the same way: same exception if any, same matrix [A], same
    values printed or plotted (the approximations and the errors among
    them); when the run completes, every name the cell assigns holds the
    same value after both runs. *)
Theorem seeded_cells_repeat k1 k2 :
  [/\ observed (exec_cell cell_svd5 k1) = observed (exec_cell cell_svd5 k2),
      observed (exec_cell cell_svd10 k1) = observed (exec_cell cell_svd10 k2),
      raised (exec_cell cell_svd5 k1) = None ->
        forall x, x \in [:: "A"; "U"; "S"; "Vt"; "k"; "S_k"; "A_k"] ->
        ns (kernel_of (exec_cell cell_svd5 k1)) x =
        ns (kernel_of (exec_cell cell_svd5 k2)) x
    & raised (exec_cell cell_svd10 k1) = None ->
        forall x, x \in rank_names ->
        ns (kernel_of (exec_cell cell_svd10 k1)) x =
        ns (kernel_of (exec_cell cell_svd10 k2)) x].
Proof.
split.
- case E: (svd (drawn 5)) => [[[U S] Vt]|e].
    have [k1' [E1 [HA1 _] _ O1 _]] := cell_svd5_run k1 E.
    have [k2' [E2 [HA2 _] _ O2 _]] := cell_svd5_run k2 E.
    by rewrite /observed E1 E2 /= HA1 HA2 O1 O2.
  have [k1' [E1 HA1 O1]] := cell_svd5_fail k1 E.
  have [k2' [E2 HA2 O2]] := cell_svd5_fail k2 E.
  by rewrite /observed E1 E2 /= HA1 HA2 O1 O2.
- case E: (svd (drawn 10)) => [[[U S] Vt]|e].
    have [k1' [E1 [HA1 _] _ _ O1]] := cell_svd10_run k1 E.
    have [k2' [E2 [HA2 _] _ _ O2]] := cell_svd10_run k2 E.
    by rewrite /observed E1 E2 /= HA1 HA2 O1 O2.
  have [k1' [E1 HA1 O1]] := cell_svd10_fail k1 E.
  have [k2' [E2 HA2 O2]] := cell_svd10_fail k2 E.
  by rewrite /observed E1 E2 /= HA1 HA2 O1 O2.
- case E: (svd (drawn 5)) => [[[U S] Vt]|e]; last first.
    by have [k1' [-> _ _]] := cell_svd5_fail k1 E.
  have [k1' [-> F1 P1 _ _]] := cell_svd5_run k1 E.
  have [k2' [-> F2 P2 _ _]] := cell_svd5_run k2 E.
  move=> _ /=; apply: forall_in.
  have HF := binds_agree F1 F2; have HP := binds_agree P1 P2.
  by do !split; first [exact: HF | exact: HP].
- case E: (svd (drawn 10)) => [[[U S] Vt]|e]; last first.
    by have [k1' [-> _ _]] := cell_svd10_fail k1 E.
  have [k1' [-> F1 Q1 P1 _]] := cell_svd10_run k1 E.
  have [k2' [-> F2 Q2 P2 _]] := cell_svd10_run k2 E.
  move=> _ /=; apply: forall_in.
  have HF := binds_agree F1 F2; have HP := binds_agree P1 P2.
  have HQ := binds_agree Q1 Q2.
  by do !split; first [exact: HF | exact: HP | exact: HQ].
Qed.

(** X1. The digits shown for [A] are another matter: the 5x5 cell prints
    [A] before it sets the precision to 2, so a first run prints it with the
    precision the kernel had, and a second run in the same kernel with 2. *)
Remark first_print_follows_earlier_runs (U Vt : 'M[R]_5) (S : 'rV[R]_5)
  k k1 k2 :
  svd (drawn 5) = Ok (U, S, Vt) ->
  exec_cell cell_svd5 k = Done tt k1 -> exec_cell cell_svd5 k1 = Done tt k2 ->
  nth (Printed VNone None) (out k1) 1 =
    Printed (VArr2 (drawn 5)) (Some (np_precision k)) /\
  nth (Printed VNone None) (out k2) 1 = Printed (VArr2 (drawn 5)) (Some 2).
Proof.
move=> E H1 H2.
have [k1' [E1 _ _ O1 P1]] := cell_svd5_run k E.
have [k2' [E2 _ _ O2 _]] := cell_svd5_run k1 E.
move: H1 H2; rewrite E1 E2 => -[Hk1] [<-].
by rewrite O2 -Hk1 O1 P1.
Qed.

(** ** The RAG pipeline *)

Ltac lib_case :=
  match goal with
  | |- context [match ?r with Ok _ => _ | Err _ => _ end] =>
      lazymatch r with
      | context [match _ with Ok _ => _ | Err _ => _ end] => fail
      | _ => let E := fresh "E" in destruct r eqn:E; py_simpl
      end
  end.

(** C6. When the cells from the web loader to the question have run to
    completion, each stage has consumed what the stage before it produced:
    [news_docs] is what the web loader returned for the article;
    [texts_chunks] is what the splitter returned for [news_docs];
    [embedding_func] is the model the embedding cell built, and [db] is the
    store built from [texts_chunks] and that model; [llm] and [prompt] are
    the model and the prompt built by the cell before the last; the chain
    is built from that [llm], that [prompt] and a retriever of that very
    [db]; and [result] is the answer of that chain to the query bound next
    to [db]. *)
Theorem rag_dataflow k k' :
  run_all (drop 2 rag_notebook) k = Done tt k' ->
  exists loader news splitter chunks emb db config llm prompt retriever
         chain res,
    [/\ [/\ WebBaseLoader lc (VStr news_url) = Ok loader,
            load lc loader = Ok news
          & ns k' "news_docs" = Some news],
        [/\ RecursiveCharacterTextSplitter lc (VInt 200) (VInt 30)
              = Ok splitter,
            split_documents lc splitter news = Ok chunks
          & ns k' "texts_chunks" = Some chunks],
        [/\ HuggingFaceEmbeddings lc (VStr embedding_model)
              embedding_device embedding_encoding = Ok emb,
            ns k' "embedding_func" = Some emb,
            Chroma_from_documents lc chunks emb = Ok db
          & ns k' "db" = Some db],
        [/\ BitsAndBytesConfig lc quantization_kwargs = Ok config,
            HuggingFacePipeline_from_model_id lc (VStr model_name)
              (VStr "text-generation") (model_kwargs config) pipeline_kwargs
              = Ok llm,
            PromptTemplate lc (VStr template_text) prompt_variables
              = Ok prompt
          & ns k' "llm" = Some llm /\ ns k' "prompt" = Some prompt]
      & [/\ as_retriever lc db (VDict [:: ("k", VInt 2)]) = Ok retriever,
            RetrievalQA_from_chain_type lc llm (VStr "stuff") retriever
              (VBool true) (VDict [:: ("prompt", prompt)]) = Ok chain
          & ns k' "qa_chain" = Some chain] /\
        [/\ ns k' "query" = Some (VStr query_text),
            RetrievalQA_call lc chain (VDict [:: ("query", VStr query_text)])
              = Ok res
          & ns k' "result" = Some res]].
Proof.
case: k => g r p o; rewrite /rag_notebook /= /cell_web /cell_split /cell_embed.
rewrite /cell_store /cell_llm /cell_qa.
do ![py_unfold; py_simpl].
do ![lib_case => //].
case=> <-; do 12!eexists.
by do !split; first [eassumption | by rewrite /= ?storeE].
Qed.

(** C10. When the chain meets that contract and the last cell completes,
    whatever [query] holds: the retriever was made from [db] with [k = 2],
    the chain was built on it with [return_source_documents=True], [result]
    holds the chain's answer to the query, and the cell has printed the
    answer and a list of at most two source documents. *)
Theorem qa_cell_prints_answer_and_two_sources k k' :
  retrieval_contract -> exec_cell cell_qa k = Done tt k' ->
  exists db llm prompt q retriever chain res answer docs,
    [/\ [/\ ns k "db" = Some db, ns k "llm" = Some llm,
            ns k "prompt" = Some prompt & ns k "query" = Some q],
        [/\ as_retriever lc db (VDict [:: ("k", VInt 2)]) = Ok retriever,
            RetrievalQA_from_chain_type lc llm (VStr "stuff") retriever
              (VBool true) (VDict [:: ("prompt", prompt)]) = Ok chain
          & RetrievalQA_call lc chain (VDict [:: ("query", q)]) = Ok res],
        [/\ ns k' "result" = Some res,
            getkey "result" res = Ok answer
          & getkey "source_documents" res = Ok (VList docs)],
        (size docs <= 2)%N
      & out k' =
        [:: Printed (VStr "回覆：") None;
            Printed answer (array_precision answer (np_precision k));
            Printed (VStr "參考資訊：") None;
            Printed (VList docs) None]].
Proof.
move=> contract; case: k => g r p o; rewrite /cell_qa.
do ![py_unfold; py_simpl].
case Hllm : (g "llm") => [llm|] //=; case Hdb : (g "db") => [db|] //=.
case Hret : (as_retriever _ _ _) => [retriever|] //=.
case Hprompt : (g "prompt") => [prompt|] //=.
case Hchain : (RetrievalQA_from_chain_type _ _ _ _ _ _) => [chain|] //=.
rewrite !storeE /=; case Hq : (g "query") => [q|] //=.
case Hres : (RetrievalQA_call _ _ _) => [res|] //=; rewrite ?storeE /=.
have [answer [docs [Hanswer Hdocs Hsize]]] :=
  contract _ _ 2 _ _ _ _ _ _ _ Hret (erefl _) Hchain Hres.
rewrite Hanswer /= ?storeE /= Hdocs /= => -[<-].
exists db, llm, prompt, q, retriever, chain, res, answer, docs.
by split=> //; rewrite /= ?storeE.
Qed.

(** ** Library failures surface unchanged *)

Lemma run_all_raise pre c post e k0 k1 k2 :
  run_all pre k0 = Done tt k1 -> exec_cell c k1 = Raise e k2 ->
  run_all (pre ++ c :: post)%SEQ k0 = Raise e k2.
Proof.
elim: pre k0 => [|c' pre IH] k0 /=; first by case=> -> /=; rewrite /bind => ->.
rewrite /bind; case: (exec_cell c' k0) => [[] k'|e' k'] //= Hpre Hc.
exact: IH.
Qed.

Ltac use_equations :=
  repeat match goal with H : _ = _ |- _ => rewrite H end.

Ltac failing_call :=
  intros; simpl in *; rewrite /fails_with /assigned;
  do ![py_unfold; py_simpl; use_equations]; by [].

(** C7. Whichever library call of whichever cell returns an exception, that
    exception is the outcome of the cell, and the kernel is left as the
    assignments before the call made it: nothing is caught, retried,
    replaced or reported on the way.  The calls are listed cell by cell, in
    the order the cell makes them; each one is reached when the calls
    before it have returned.  A cell's exception is in turn the outcome of
    the run of the notebook. *)
Theorem library_errors_propagate e k :
  (* 1.1 PDFs *)
  [/\ PyPDFLoader lc (VStr "PDF_DIRECTORY") = Err e ->
        fails_with cell_pdf k e [:: pdf_dir]
    & forall loader,
        PyPDFLoader lc (VStr "PDF_DIRECTORY") = Ok loader ->
        load lc loader = Err e ->
        fails_with cell_pdf k e [:: ("loader", loader); pdf_dir]] /\
  (* 1.2 YouTube video *)
  [/\ YoutubeAudioLoader lc (VList [:: VStr youtube_url])
        (VStr "docs/youtube/") = Err e ->
        fails_with cell_youtube k e youtube_names,
      forall audio,
        YoutubeAudioLoader lc (VList [:: VStr youtube_url])
          (VStr "docs/youtube/") = Ok audio ->
        OpenAIWhisperParser lc = Err e ->
        fails_with cell_youtube k e youtube_names,
      forall audio parser,
        YoutubeAudioLoader lc (VList [:: VStr youtube_url])
          (VStr "docs/youtube/") = Ok audio ->
        OpenAIWhisperParser lc = Ok parser ->
        GenericLoader lc audio parser = Err e ->
        fails_with cell_youtube k e youtube_names
    & forall audio parser loader,
        YoutubeAudioLoader lc (VList [:: VStr youtube_url])
          (VStr "docs/youtube/") = Ok audio ->
        OpenAIWhisperParser lc = Ok parser ->
        GenericLoader lc audio parser = Ok loader ->
        load lc loader = Err e ->
        fails_with cell_youtube k e (("loader", loader) :: youtube_names)] /\
  (* 1.3 URLs *)
  [/\ WebBaseLoader lc (VStr news_url) = Err e ->
        fails_with cell_web k e [:: ("url", VStr news_url)]
    & forall loader,
        WebBaseLoader lc (VStr news_url) = Ok loader ->
        load lc loader = Err e ->
        fails_with cell_web k e
          [:: ("loader", loader); ("url", VStr news_url)]] /\
  (* 2. Splitting *)
  [/\ RecursiveCharacterTextSplitter lc (VInt 200) (VInt 30) = Err e ->
        fails_with cell_split k e [::]
    & forall splitter news,
        RecursiveCharacterTextSplitter lc (VInt 200) (VInt 30) = Ok splitter ->
        ns k "news_docs" = Some news ->
        split_documents lc splitter news = Err e ->
        fails_with cell_split k e [:: ("text_splitter", splitter)]] /\
  (* 3.1 Embedding *)
  [/\ HuggingFaceEmbeddings lc (VStr embedding_model)
        embedding_device embedding_encoding = Err e ->
        fails_with cell_embed k e [::],
      forall model,
        HuggingFaceEmbeddings lc (VStr embedding_model)
          embedding_device embedding_encoding = Ok model ->
        embed_query lc model sentence_a = Err e ->
        fails_with cell_embed k e [:: ("embedding_func", model)],
      forall model a,
        HuggingFaceEmbeddings lc (VStr embedding_model)
          embedding_device embedding_encoding = Ok model ->
        embed_query lc model sentence_a = Ok a ->
        embed_query lc model sentence_b = Err e ->
        fails_with cell_embed k e [:: ("a", a); ("embedding_func", model)]
    & forall model a b,
        HuggingFaceEmbeddings lc (VStr embedding_model)
          embedding_device embedding_encoding = Ok model ->
        embed_query lc model sentence_a = Ok a ->
        embed_query lc model sentence_b = Ok b ->
        cosine_similarity lc (VList [:: a]) (VList [:: b]) = Err e ->
        fails_with cell_embed k e
          [:: ("b", b); ("a", a); ("embedding_func", model)]] /\
  (* 3.2 Vector store *)
  [/\ forall chunks model,
        ns k "texts_chunks" = Some chunks ->
        ns k "embedding_func" = Some model ->
        Chroma_from_documents lc chunks model = Err e ->
        fails_with cell_store k e [::]
    & forall chunks model db,
        ns k "texts_chunks" = Some chunks ->
        ns k "embedding_func" = Some model ->
        Chroma_from_documents lc chunks model = Ok db ->
        similarity_search_with_score lc db (VStr query_text) = Err e ->
        fails_with cell_store k e
          [:: ("query", VStr query_text); ("db", db)]] /\
  (* 4. Retrieval: the model and the prompt *)
  [/\ BitsAndBytesConfig lc quantization_kwargs = Err e ->
        fails_with cell_llm k e [:: ("MODEL_NAME", VStr model_name)],
      forall config,
        BitsAndBytesConfig lc quantization_kwargs = Ok config ->
        HuggingFacePipeline_from_model_id lc (VStr model_name)
          (VStr "text-generation") (model_kwargs config) pipeline_kwargs
          = Err e ->
        fails_with cell_llm k e
          [:: ("quantization_config", config);
              ("MODEL_NAME", VStr model_name)]
    & forall config llm,
        BitsAndBytesConfig lc quantization_kwargs = Ok config ->
        HuggingFacePipeline_from_model_id lc (VStr model_name)
          (VStr "text-generation") (model_kwargs config) pipeline_kwargs
          = Ok llm ->
        PromptTemplate lc (VStr template_text) prompt_variables = Err e ->
        fails_with cell_llm k e
          [:: ("template", VStr template_text); ("llm", llm);
              ("quantization_config", config);
              ("MODEL_NAME", VStr model_name)]] /\
  (* 4. Retrieval: the chain and the question *)
  [/\ forall llm db,
        ns k "llm" = Some llm -> ns k "db" = Some db ->
        as_retriever lc db (VDict [:: ("k", VInt 2)]) = Err e ->
        fails_with cell_qa k e [::],
      forall llm db prompt retriever,
        ns k "llm" = Some llm -> ns k "db" = Some db ->
        ns k "prompt" = Some prompt ->
        as_retriever lc db (VDict [:: ("k", VInt 2)]) = Ok retriever ->
        RetrievalQA_from_chain_type lc llm (VStr "stuff") retriever
          (VBool true) (VDict [:: ("prompt", prompt)]) = Err e ->
        fails_with cell_qa k e [::]
    & forall llm db prompt q retriever chain,
        ns k "llm" = Some llm -> ns k "db" = Some db ->
        ns k "prompt" = Some prompt -> ns k "query" = Some q ->
        as_retriever lc db (VDict [:: ("k", VInt 2)]) = Ok retriever ->
        RetrievalQA_from_chain_type lc llm (VStr "stuff") retriever
          (VBool true) (VDict [:: ("prompt", prompt)]) = Ok chain ->
        RetrievalQA_call lc chain (VDict [:: ("query", q)]) = Err e ->
        fails_with cell_qa k e [:: ("qa_chain", chain)]] /\
  (* the low-rank notebook *)
  [/\ svd (drawn 5) = Err e ->
        exec_cell cell_svd5 k =
          Raise e (Kernel (store "A" (VArr2 (drawn 5)) (ns k))
                     (draw 5 5 (seed_state 0)).2 (np_precision k)
                     (prints5_head (np_precision k) (drawn 5)))
    & svd (drawn 10) = Err e ->
        exec_cell cell_svd10 k =
          Raise e (Kernel (store "A" (VArr2 (drawn 10)) (ns k))
                     (draw 10 10 (seed_state 0)).2 (np_precision k) [::])] /\
  (* from a cell to the run *)
  (forall cells pre c post k1 k2,
     cells = (pre ++ c :: post)%SEQ ->
     run_all pre k = Done tt k1 -> exec_cell c k1 = Raise e k2 ->
     run_all cells k = Raise e k2).
Proof.
case: k => g r p o.
do 8![split; first by split; rewrite /cell_pdf /cell_youtube /cell_web
        /cell_split /cell_embed /cell_store /cell_llm /cell_qa; failing_call].
split; last by move=> cells pre c post k1 k2 ->; apply: run_all_raise.
split.
- rewrite /drawn /cell_svd5; py_unfold; py_simpl.
  by case Hdraw : (draw 5 5 (seed_state 0)) => [A g'] /= ->.
- rewrite /drawn /cell_svd10; py_unfold; py_simpl.
  by case Hdraw : (draw 10 10 (seed_state 0)) => [A g'] /= ->.
Qed.

(** ** What the cells of the low-rank notebook leave and show *)

(** X2. In the last pass of the 10x10 loop the slices keep everything:
    when the decomposition succeeds, [A_k] ends as [U @ np.diag(S) @ Vt]
    itself, and the last entry of [errors], which is also what [error]
    holds, is the Frobenius norm of [A] minus that product: the residual of
    the decomposition as the library returned it. *)
Theorem cell_svd10_last_error_is_full_residual
  (U Vt : 'M[R]_10) (S : 'rV[R]_10) k :
  svd (drawn 10) = Ok (U, S, Vt) ->
  exists k' errs,
    [/\ exec_cell cell_svd10 k = Done tt k',
        ns k' "errors" = Some (VList errs),
        last VNone errs =
          VFloat (fro_norm (drawn 10 - U *m diag_mx S *m Vt)),
        ns k' "A_k" = Some (VArr2 (U *m diag_mx S *m Vt))
      & ns k' "error" = Some (last VNone errs) /\
        ns k' "k" = Some (VInt 10)].
Proof.
move=> /(cell_svd10_run k)[k' [Hrun _ [_ [Herrs _]] Hlast _]].
case: Hlast => Hk [_ [HAk [Herror _]]].
have Hfull : low_rank U S Vt 10 = U *m diag_mx S *m Vt.
  exact: low_rank_full.
exists k', (errors_of (drawn 10) U Vt S (iota 1 10)).
by split; rewrite -?Hfull ?Herror ?Hk.
Qed.

(** X7. The 10x10 loop for any list of ranks and any list already bound to
    [errors], on square factors of any size: it completes, leaves [ranks]
    as it was and adds to [errors], after the entries it held, one entry per
    rank, in order, the Frobenius norm of [A] minus the truncation of that
    rank; the loop variable stays bound to the last rank.  With no rank it
    changes nothing at all; it never touches numpy's state or the output
    area. *)
Theorem loop_svd10_appends_one_error_per_rank
  n (A U Vt : 'M[R]_n) (S : 'rV[R]_n) js errs k :
  binds (ns k) (factors A U Vt S) ->
  ns k "errors" = Some (VList errs) ->
  ns k "ranks" = Some (VList [seq VInt j | j <- js]) ->
  exists k' errs',
    [/\ loop_svd10 k = Done tt k',
        ns k' "errors" = Some (VList (errs ++ errs')%SEQ),
        size errs' = size js /\
        forall i, (i < size js)%N ->
          nth VNone errs' i =
          VFloat (fro_norm (A - take_cols U (nth 0%N js i) *m
                                  diag_mx (take_vec S (nth 0%N js i)) *m
                                  take_rows Vt (nth 0%N js i))),
        if js is j :: js' then ns k' "k" = Some (VInt (last j js'))
        else k' = k
      & [/\ ns k' "ranks" = ns k "ranks", np_rng k' = np_rng k,
            np_precision k' = np_precision k & out k' = out k]].
Proof.
move=> Hf He Hr.
have Hloop : loop_svd10 k = iterate "k" [seq VInt j | j <- js] body_svd10 k.
  by rewrite /loop_svd10 /for_in /bind /var Hr.
case: js Hr Hloop => [|j js] Hr Hloop.
  by exists k, [::]; rewrite cats0 Hloop.
have [k' [Hrun _ Herrs [Hk _] Hnp]] := iterate_svd10 (j :: js) Hf He.
exists k', (errors_of A U Vt S (j :: js)); split=> //; first by rewrite Hloop.
by rewrite size_map; split=> // i Hi; rewrite (nth_map 0%N).
Qed.

(** X8. When the decomposition succeeds the 5x5 cell shows nine items: the
    heading, [A] with the precision in force when the cell starts and an
    empty line; then for [k = 1] and [k = 3] the line that names the rank,
    the truncated product with precision 2 and an empty line.  The loop
    variable and the last product stay bound afterwards. *)
Theorem cell_svd5_prints_both_truncations (U Vt : 'M[R]_5) (S : 'rV[R]_5) k :
  svd (drawn 5) = Ok (U, S, Vt) ->
  exists k',
    [/\ exec_cell cell_svd5 k = Done tt k',
        out k' =
          [:: Printed (VStr "full-rank = Original Matrix A:") None;
              Printed (VArr2 (drawn 5)) (Some (np_precision k));
              Printed (VStr newline) None;
              Printed (VFmt [:: VStr "Rank "; VInt 1;
                                VStr " approximation:"]) None;
              Printed (VArr2 (take_cols U 1 *m diag_mx (take_vec S 1) *m
                              take_rows Vt 1)) (Some 2);
              Printed (VStr newline) None;
              Printed (VFmt [:: VStr "Rank "; VInt 3;
                                VStr " approximation:"]) None;
              Printed (VArr2 (take_cols U 3 *m diag_mx (take_vec S 3) *m
                              take_rows Vt 3)) (Some 2);
              Printed (VStr newline) None],
        ns k' "k" = Some (VInt 3)
      & ns k' "A_k" =
          Some (VArr2 (take_cols U 3 *m diag_mx (take_vec S 3) *m
                       take_rows Vt 3))].
Proof.
move=> /(cell_svd5_run k)[k' [Hrun _ [Hk [_ [HAk _]]] Hout _]].
by exists k'.
Qed.

(** X9. When the decomposition succeeds the 10x10 cell shows exactly the
    seven pyplot calls of its last lines, in order, and the two lists handed
    to [plt.plot] are the values bound to [ranks] and [errors] when the cell
    ends. *)
Theorem cell_svd10_plots_the_recorded_errors
  (U Vt : 'M[R]_10) (S : 'rV[R]_10) k :
  svd (drawn 10) = Ok (U, S, Vt) ->
  exists k' ranks errors,
    [/\ exec_cell cell_svd10 k = Done tt k',
        ns k' "ranks" = Some ranks,
        ns k' "errors" = Some errors
      & out k' =
          [:: Plt "figure" [::] [:: ("figsize", VTuple [:: VInt 5; VInt 3])];
              Plt "plot" [:: ranks; errors] [:: ("marker", VStr "o")];
              Plt "title" [:: VStr "Error of Low Rank Approximations"] [::];
              Plt "xlabel" [:: VStr "Rank k"] [::];
              Plt "ylabel" [:: VStr "Frobenius Norm of the Error"] [::];
              Plt "grid" [:: VBool true] [::];
              Plt "show" [::] [::]]].
Proof.
move=> /(cell_svd10_run k)[k' [Hrun _ [Hranks [Herrs _]] _ Hout]].
by exists k'; do 2!eexists; split; [exact: Hrun | exact: Hranks | exact: Herrs |].
Qed.

(** ** The two cells of the low-rank notebook share their names *)

Lemma cell_svd10_numpy (U Vt : 'M[R]_10) (S : 'rV[R]_10) k :
  svd (drawn 10) = Ok (U, S, Vt) ->
  np_rng (kernel_of (exec_cell cell_svd10 k)) = (draw 10 10 (seed_state 0)).2 /\
  np_precision (kernel_of (exec_cell cell_svd10 k)) = np_precision k.
Proof.
case: k => g0 r0 p0 o0; rewrite /drawn /cell_svd10; py_unfold; py_simpl.
case Hdraw : (draw 10 10 (seed_state 0)) => [A g] /= Hsvd.
rewrite Hsvd; py_simpl.
set k0 := (X in loop_svd10 X).
have [] := @loop_svd10_run 10 A U Vt S 1 (iota 2 9) k0; rewrite /= ?storeE //.
case=> g1 r1 p1 o1 [-> Hf Herrs Hlast [Hranks Hrng Hprec Hout]].
rewrite /= in Hf Herrs Hlast Hranks Hrng Hprec Hout *.
do ![py_unfold; py_simpl; rewrite ?(Hranks, Herrs, Hout)].
by rewrite Hrng Hprec.
Qed.

Lemma writes_cell_svd5_own :
  writes_within [:: "A"; "U"; "S"; "Vt"; "k"; "S_k"; "A_k"]
    (exec_cell cell_svd5).
Proof.
apply: writes_withinP => k0; rewrite /cell_svd5 /loop_svd5 /body_svd5.
by keeps_frame.
Qed.

(** X10. The 10x10 cell rebinds every name the 5x5 cell has bound: when
    both decompositions succeed, running the notebook from top to bottom
    ends with the namespace, the generator state and the output that the
    10x10 cell alone would leave.  Only the print precision tells the two
    apart: the 5x5 cell has set it to 2. *)
Theorem rank_notebook_ends_as_cell_svd10
  (U5 Vt5 : 'M[R]_5) (S5 : 'rV[R]_5) (U Vt : 'M[R]_10) (S : 'rV[R]_10) k :
  svd (drawn 5) = Ok (U5, S5, Vt5) -> svd (drawn 10) = Ok (U, S, Vt) ->
  exists k1 k2,
    [/\ run_all rank_notebook k = Done tt k1,
        exec_cell cell_svd10 k = Done tt k2,
        forall x, ns k1 x = ns k2 x,
        np_rng k1 = np_rng k2 /\ out k1 = out k2
      & np_precision k1 = 2 /\ np_precision k2 = np_precision k].
Proof.
move=> E5 E10.
have [k5 [R5 _ _ _ P5]] := cell_svd5_run k E5.
have [k1 [R1 F1 Q1 V1 O1]] := cell_svd10_run k5 E10.
have [k2 [R2 F2 Q2 V2 O2]] := cell_svd10_run k E10.
have [] := cell_svd10_numpy k5 E10; rewrite R1 /= => G1 P1.
have [] := cell_svd10_numpy k E10; rewrite R2 /= => G2 P2.
exists k1, k2; split=> //.
- by rewrite /rank_notebook /= /bind R5 R1.
- move=> x; case: (boolP (x \in rank_names)) => Hx.
    move: x Hx; apply: forall_in.
    have HF := binds_agree F1 F2; have HQ := binds_agree Q1 Q2.
    have HV := binds_agree V1 V2.
    by do !split; first [exact: HF | exact: HQ | exact: HV].
  have := writes_cell_svd10 k5 Hx; rewrite R1 /= => ->.
  have := writes_cell_svd5 k Hx; rewrite R5 /= => ->.
  by have := writes_cell_svd10 k Hx; rewrite R2 /= => ->.
- by rewrite G1 G2 O1 O2.
- by rewrite P1 P5 P2.
Qed.

(** X11. The other order, which is the one the saved execution counts (4
    for the 10x10 cell, 6 for the 5x5 cell) record: running the 5x5 cell
    after the 10x10 cell rebinds [A], [U], [S], [Vt], [k] and [A_k] to the
    5x5 values, while [ranks], [errors] and [error] still hold what the
    10x10 cell computed for its own matrix. *)
Theorem cell_svd5_after_cell_svd10
  (U5 Vt5 : 'M[R]_5) (S5 : 'rV[R]_5) (U Vt : 'M[R]_10) (S : 'rV[R]_10) k :
  svd (drawn 5) = Ok (U5, S5, Vt5) -> svd (drawn 10) = Ok (U, S, Vt) ->
  exists k',
    [/\ run_all [:: cell_svd10; cell_svd5] k = Done tt k',
        binds (ns k') (factors (drawn 5) U5 Vt5 S5),
        binds (ns k')
          [:: ("k", VInt 3); ("A_k", VArr2 (low_rank U5 S5 Vt5 3))]
      & binds (ns k')
          [:: ("ranks", list_range 1 11);
              ("errors", VList (errors_of (drawn 10) U Vt S (iota 1 10)));
              ("error", VFloat (fro_norm (drawn 10 - low_rank U S Vt 10)))]].
Proof.
move=> E5 E10.
have [k1 [R1 _ [Hranks [Herrs _]] [_ [_ [_ [Herror _]]]] _]] :=
  cell_svd10_run k E10.
have [k' [R5 F5 [Hk [_ [HAk _]]] _ _]] := cell_svd5_run k1 E5.
exists k'; split=> //; first by rewrite /= /bind R1 R5.
have W x : x \notin [:: "A"; "U"; "S"; "Vt"; "k"; "S_k"; "A_k"] ->
    ns k' x = ns k1 x.
  by move=> Hx; have := writes_cell_svd5_own k1 Hx; rewrite R5.
by rewrite /= !W.
Qed.

(** ** Edges of the RAG cells *)

Lemma prefix_str_take n s : String.prefix (str_take n s) s = true.
Proof.
elim: s n => [|c s IH] n //=.
case: (continuation c); first by case: (Ascii.ascii_dec c c).
by case: n => [|n] //=; case: (Ascii.ascii_dec c c).
Qed.

Lemma str_len_take n s : str_len (str_take n s) = minn n (str_len s).
Proof.
elim: s n => [|c s IH] n /=.
  by rewrite minn0.
case E: (continuation c); rewrite /= ?E /= ?IH //.
by case: n => [|n] //=; rewrite E IH !add1n minnSS.
Qed.

Lemma str_take_all n s : (str_len s <= n)%N -> str_take n s = s.
Proof.
elim: s n => [|c s IH] n //=.
case E: (continuation c) => /=; first by move=> /IH->.
by case: n => [|n] //; rewrite add1n ltnS => /IH->.
Qed.

(** Characters are not bytes: the query of the notebook has 11 characters
    and its encoding 23 bytes. *)
Remark str_len_query_text :
  str_len query_text = 11 /\ String.length query_text = 23.
Proof. by []. Qed.

(** X12. When the web loader returns a list that starts with a document,
    the cell completes and shows the start of the text of that document:
    its first 100 characters, or the whole text when it has no more (a
    slice never fails on a short string).  Characters are counted as Python
    counts them, one per code point of the text. *)
Theorem web_cell_shows_start_of_first_document loader text meta rest k :
  WebBaseLoader lc (VStr news_url) = Ok loader ->
  load lc loader = Ok (VList (VDoc text meta :: rest)) ->
  exists start,
    [/\ exec_cell cell_web k =
          Done tt
            (with_out [:: Displayed (VStr start) None]
               (assigned [:: ("news_docs", VList (VDoc text meta :: rest));
                             ("loader", loader); ("url", VStr news_url)] k)),
        String.prefix start text = true,
        str_len start = minn 100 (str_len text)
      & (str_len text <= 100)%N -> start = text].
Proof.
move=> Hl Hd; exists (str_take 100 text).
split; [|exact: prefix_str_take|exact: str_len_take|exact: str_take_all].
case: k => g r p o; rewrite /cell_web /assigned.
by do ![py_unfold; py_simpl; rewrite ?Hl ?Hd].
Qed.

(** X13. Likewise the YouTube cell shows the first 500 characters of the
    text of the first transcribed document, or the whole text when it has
    no more. *)
Theorem youtube_cell_shows_start_of_first_document
  audio parser loader text meta rest k :
  YoutubeAudioLoader lc (VList [:: VStr youtube_url]) (VStr "docs/youtube/")
    = Ok audio ->
  OpenAIWhisperParser lc = Ok parser ->
  GenericLoader lc audio parser = Ok loader ->
  load lc loader = Ok (VList (VDoc text meta :: rest)) ->
  exists start,
    [/\ exec_cell cell_youtube k =
          Done tt
            (with_out [:: Displayed (VStr start) None]
               (assigned (("video_docs", VList (VDoc text meta :: rest)) ::
                          ("loader", loader) :: youtube_names) k)),
        String.prefix start text = true,
        str_len start = minn 500 (str_len text)
      & (str_len text <= 500)%N -> start = text].
Proof.
move=> Ha Hp Hl Hd; exists (str_take 500 text).
split; [|exact: prefix_str_take|exact: str_len_take|exact: str_take_all].
case: k => g r p o; rewrite /cell_youtube /assigned.
by do ![py_unfold; py_simpl; rewrite ?Ha ?Hp ?Hl ?Hd].
Qed.

(** X14. The cells that pick the first element of what a library returned
    fail with [IndexError] when that list is empty: the web cell and the
    YouTube cell on an empty list of documents, the vector-store cell on an
    empty list of hits.  The assignments made so far stay, and nothing is
    shown. *)
Theorem first_item_needs_a_nonempty_list k :
  [/\ forall loader,
        WebBaseLoader lc (VStr news_url) = Ok loader ->
        load lc loader = Ok (VList [::]) ->
        fails_with cell_web k IndexError
          [:: ("news_docs", VList [::]); ("loader", loader);
              ("url", VStr news_url)],
      forall audio parser loader,
        YoutubeAudioLoader lc (VList [:: VStr youtube_url])
          (VStr "docs/youtube/") = Ok audio ->
        OpenAIWhisperParser lc = Ok parser ->
        GenericLoader lc audio parser = Ok loader ->
        load lc loader = Ok (VList [::]) ->
        fails_with cell_youtube k IndexError
          (("video_docs", VList [::]) :: ("loader", loader) :: youtube_names)
    & forall chunks model db,
        ns k "texts_chunks" = Some chunks ->
        ns k "embedding_func" = Some model ->
        Chroma_from_documents lc chunks model = Ok db ->
        similarity_search_with_score lc db (VStr query_text) = Ok (VList [::]) ->
        fails_with cell_store k IndexError
          [:: ("docs", VList [::]); ("query", VStr query_text); ("db", db)]].
Proof.
case: k => g r p o.
by split; rewrite /cell_web /cell_youtube /cell_store; failing_call.
Qed.

(** X15. When the answer of the chain is a dictionary without the key
    ["result"], the last cell stops on [KeyError] after its first print;
    when it has ["result"] but not ["source_documents"], after its third
    print.  In both cases [qa_chain] and [result] stay bound. *)
Theorem qa_cell_stops_at_a_missing_key
  llm db prompt q retriever chain kvs k :
  [/\ ns k "llm" = Some llm, ns k "db" = Some db,
      ns k "prompt" = Some prompt & ns k "query" = Some q] ->
  as_retriever lc db (VDict [:: ("k", VInt 2)]) = Ok retriever ->
  RetrievalQA_from_chain_type lc llm (VStr "stuff") retriever
    (VBool true) (VDict [:: ("prompt", prompt)]) = Ok chain ->
  RetrievalQA_call lc chain (VDict [:: ("query", q)]) = Ok (VDict kvs) ->
  let bound := assigned [:: ("result", VDict kvs); ("qa_chain", chain)] k in
  (lookup_key "result" kvs = None ->
   exec_cell cell_qa k =
     Raise (KeyError "result")
       (with_out [:: Printed (VStr "回覆：") None] bound)) /\
  (forall answer,
     lookup_key "result" kvs = Some answer ->
     lookup_key "source_documents" kvs = None ->
     exec_cell cell_qa k =
       Raise (KeyError "source_documents")
         (with_out
            [:: Printed (VStr "回覆：") None;
                Printed answer (array_precision answer (np_precision k));
                Printed (VStr "參考資訊：") None] bound)).
Proof.
case: k => g r p o /= [Hllm Hdb Hprompt Hq] Hret Hchain Hres.
by split=> [Hno|answer Hans Hno]; rewrite /cell_qa /assigned;
   do ![py_unfold; py_simpl; use_equations].
Qed.

(** X16. A cell run before the cell that assigns a name it reads stops on
    [NameError] for the first such name, in the order Python evaluates the
    cell.  The splitting cell and the vector-store cell import what they
    call themselves, so the first name they can miss is one of the data:
    the splitting cell misses [news_docs] (and has bound [text_splitter] by
    then), the vector-store cell [texts_chunks], then [embedding_func]. *)
Theorem cells_need_the_names_of_earlier_cells k :
  [/\ forall splitter,
        RecursiveCharacterTextSplitter lc (VInt 200) (VInt 30) = Ok splitter ->
        ns k "news_docs" = None ->
        fails_with cell_split k (NameError "news_docs")
          [:: ("text_splitter", splitter)],
      ns k "texts_chunks" = None ->
        fails_with cell_store k (NameError "texts_chunks") [::]
    & forall chunks,
        ns k "texts_chunks" = Some chunks -> ns k "embedding_func" = None ->
        fails_with cell_store k (NameError "embedding_func") [::]].
Proof.
case: k => g r p o.
by split; rewrite /cell_split /cell_store; failing_call.
Qed.

(** ** The pipeline from the web loader on stands alone *)

Lemma run_all_cons c cells k :
  run_all (c :: cells) k =
  match exec_cell c k with
  | Done _ k' => run_all cells k'
  | Raise e k' => Raise e k'
  end.
Proof. by []. Qed.

Lemma pipeline_self_contained k1 k2 :
  np_precision k1 = np_precision k2 ->
  [/\ raised (run_all (drop 2 rag_notebook) k1) =
      raised (run_all (drop 2 rag_notebook) k2),
      out (kernel_of (run_all (drop 2 rag_notebook) k1)) =
      out (kernel_of (run_all (drop 2 rag_notebook) k2))
    & raised (run_all (drop 2 rag_notebook) k1) = None ->
      forall x, x \in pipeline_names ->
        ns (kernel_of (run_all (drop 2 rag_notebook) k1)) x =
        ns (kernel_of (run_all (drop 2 rag_notebook) k2)) x].
Proof.
case: k1 k2 => g1 r1 p1 o1 [g2 r2 p2 o2] /= <-.
rewrite /rag_notebook /= /cell_web /cell_split /cell_embed.
rewrite /cell_store /cell_llm /cell_qa.
do ![py_unfold; py_simpl].
do ![lib_case => //].
split=> // _; apply: forall_in.
by do !split; rewrite /= ?storeE.
Qed.

(** X17. From the web-loader cell on, the notebook reads no name that it
    has not assigned earlier in the same run.  Started in two kernels with
    the same print precision, whatever their namespaces and generator
    states, the run ends the same way: if one completes so does the other,
    with the same output and the same value under every name of the
    pipeline; if one raises, the other raises the same exception with the
    same output. *)
Theorem pipeline_reads_only_what_it_assigned k1 k2 :
  np_precision k1 = np_precision k2 ->
  (forall k1',
     run_all (drop 2 rag_notebook) k1 = Done tt k1' ->
     exists k2',
       [/\ run_all (drop 2 rag_notebook) k2 = Done tt k2',
           out k1' = out k2'
         & forall x, x \in pipeline_names -> ns k1' x = ns k2' x]) /\
  (forall e k1',
     run_all (drop 2 rag_notebook) k1 = Raise e k1' ->
     exists k2',
       run_all (drop 2 rag_notebook) k2 = Raise e k2' /\ out k1' = out k2').
Proof.
move=> /pipeline_self_contained[].
case: (run_all _ k1) => [[] k1'|e1 k1']; case: (run_all _ k2) => [[] k2'|e2 k2'];
  rewrite //= => Hraised Hout Hns.
- by split=> // _ [<-]; exists k2'; split=> //; apply: Hns.
- by case: Hraised => <-; split=> // e k [<- <-]; exists k2'.
Qed.

(** X18. The PDF cell and the YouTube cell feed nothing into the answer:
    when the whole notebook runs to completion, so does the notebook without
    its first two cells, with the same output and the same value under every
    name of the pipeline, [result] included. *)
Theorem answer_ignores_pdf_and_youtube_cells k k1 :
  run_all rag_notebook k = Done tt k1 ->
  exists k2,
    [/\ run_all (drop 2 rag_notebook) k = Done tt k2,
        out k1 = out k2
      & forall x, x \in pipeline_names -> ns k1 x = ns k2 x].
Proof.
have -> : rag_notebook = [:: cell_pdf, cell_youtube & drop 2 rag_notebook].
  by [].
rewrite run_all_cons.
case Epdf : (exec_cell cell_pdf k) => [[] ka|] //; rewrite run_all_cons.
case Eyt : (exec_cell cell_youtube ka) => [[] kb|] // Hrun.
have [_ _ /(_ k)[_]] := independent_cell_pdf; rewrite Epdf /= => Hka.
have [_ _ /(_ ka)[_]] := independent_cell_youtube; rewrite Eyt /= => Hkb.
have [] := @pipeline_self_contained kb k; first by rewrite Hkb Hka.
rewrite Hrun.
case E2 : (run_all (drop 2 rag_notebook) k) => [[] k2|e k2] //= _ Hout Hns.
by exists k2; split=> //; apply: Hns.
Qed.

Local Close Scope string_scope.

End Notebooks.

(** ** A library to run the notebooks against

    Numbers are the real algebraic numbers; every draw returns the identity
    pattern and the decomposition answers with identity factors and unit
    singular values, which is the decomposition of what was drawn.  The
    LangChain stand-ins return fixed documents, and the retriever keeps as
    many of them as its [k] says. *)

Local Open Scope string_scope.

Definition ex_seed (s : nat) : unit := tt.

Definition ex_draw (m n : nat) (g : unit) : 'M[algR]_(m, n) * unit :=
  (\matrix_(i, j) (i == j :> nat)%:R, tt).

Definition ex_svd (m n : nat) (A : 'M[algR]_(m, n))
  : result ('M[algR]_m * 'rV[algR]_(minn m n) * 'M[algR]_n) :=
  Ok (1%:M, const_mx 1, 1%:M).

Definition ex_value : Type := value algR nat.

Definition ex_docs : seq ex_value :=
  [:: VDoc algR nat "LLM" [::]; VDoc algR nat "AI" [::];
      VDoc algR nat "RAG" [::]].

Definition ex_object : ex_value := VObj algR 0%N.

Definition ex_lc : langchain algR nat :=
  {| PyPDFLoader := fun _ => Ok ex_object;
     YoutubeAudioLoader := fun _ _ => Ok ex_object;
     OpenAIWhisperParser := Ok ex_object;
     GenericLoader := fun _ _ => Ok ex_object;
     WebBaseLoader := fun _ => Ok ex_object;
     load := fun _ => Ok (VList ex_docs);
     RecursiveCharacterTextSplitter := fun _ _ => Ok ex_object;
     split_documents := fun _ docs => Ok docs;
     HuggingFaceEmbeddings := fun _ _ _ => Ok ex_object;
     embed_query := fun _ _ => Ok (VList [:: VFloat nat (1 : algR)]);
     cosine_similarity := fun _ _ => Ok (VFloat nat (1 : algR));
     Chroma_from_documents := fun _ _ => Ok ex_object;
     similarity_search_with_score := fun _ _ =>
       Ok (VList [:: VTuple [:: VDoc algR nat "LLM" [::];
                                VFloat nat (0 : algR)]]);
     BitsAndBytesConfig := fun _ => Ok ex_object;
     HuggingFacePipeline_from_model_id := fun _ _ _ _ => Ok ex_object;
     PromptTemplate := fun _ _ => Ok ex_object;
     as_retriever := fun _ kwargs =>
       match kwargs with
       | VDict kvs =>
           match lookup_key "k" kvs with
           | Some (VInt n) => Ok (VObj algR n)
           | _ => Ok (VObj algR 4%N)
           end
       | _ => Err TypeError
       end;
     RetrievalQA_from_chain_type := fun _ _ retriever _ _ => Ok retriever;
     RetrievalQA_call := fun chain q =>
       match chain with
       | VObj n =>
           Ok (VDict [:: ("query", q); ("result", VStr algR nat "answer");
                         ("source_documents", VList (take n ex_docs))])
       | _ => Err TypeError
       end |}.

Definition ex_kernel : kernel algR nat unit :=
  Kernel (fun _ => None) tt 8 [::].

Definition ex_names (xs : seq (string * ex_value)) : kernel algR nat unit :=
  Kernel (foldr (fun xv g => store xv.1 xv.2 g) (fun _ => None) xs) tt 8 [::].

Lemma cell_svd10_records_residuals_witness :
  exists k' errs,
    [/\ exec_cell (cell_svd10 ex_seed ex_draw ex_svd) ex_kernel = Done tt k',
        ns k' "errors" = Some (VList errs) & size errs = 10].
Proof.
have [k' [errs [Hrun [_ _ Herrs] Hsize _]]] :=
  @cell_svd10_records_residuals algR nat unit ex_seed ex_draw ex_svd
    1%:M 1%:M (const_mx 1) ex_kernel (erefl _).
by exists k', errs.
Defined.

Lemma completed (k0 : kernel algR nat unit) (m : py algR nat unit unit) :
  raised (m k0) = None -> m k0 = Done tt (kernel_of (m k0)).
Proof. by case: (m k0) => [[] k'|e k']. Qed.

Lemma rag_dataflow_witness :
  exists k' news chunks emb db res,
    [/\ run_all (drop 2 (rag_notebook unit ex_lc)) ex_kernel = Done tt k',
        ns k' "news_docs" = Some news,
        ns k' "texts_chunks" = Some chunks,
        ns k' "embedding_func" = Some emb /\
        Chroma_from_documents ex_lc chunks emb = Ok db
      & ns k' "db" = Some db /\ ns k' "result" = Some res].
Proof.
have Hrun := @completed ex_kernel
  (run_all (drop 2 (rag_notebook unit ex_lc))) (erefl _).
have [ld [news [sp [chunks [emb [db [cf [llm [pr [retr [chain [res H]]]]]]]]]]]]
  := rag_dataflow Hrun.
case: H => [[_ _ Hnews] [_ _ Hchunks] [_ Hemb Hstore Hdb] _ [_ [_ _ Hres]]].
eexists; exists news, chunks, emb, db, res.
split; [exact: Hrun | exact: Hnews | exact: Hchunks | | ].
- exact: (conj Hemb Hstore).
- exact: (conj Hdb Hres).
Defined.

Lemma ex_retrieval_contract : retrieval_contract ex_lc.
Proof.
move=> db kwargs kmax retriever llm ct ck chain q res /=.
move=> Hret Hk [Hchain]; rewrite Hk in Hret; case: Hret Hchain => <- <- [<-].
exists (VStr algR nat "answer"), (take kmax ex_docs); split=> //.
by rewrite size_take; case: ltnP.
Qed.

Definition ex_qa_kernel : kernel algR nat unit :=
  ex_names [:: ("db", ex_object); ("llm", ex_object); ("prompt", ex_object);
               ("query", VStr algR nat query_text)].

Lemma qa_cell_prints_answer_and_two_sources_witness :
  retrieval_contract ex_lc /\
  exists k' docs,
    [/\ exec_cell (cell_qa ex_lc) ex_qa_kernel = Done tt k',
        (size docs <= 2)%N
      & out k' =
        [:: Printed (VStr algR nat "回覆：") None;
            Printed (VStr algR nat "answer") None;
            Printed (VStr algR nat "參考資訊：") None;
            Printed (VList docs) None]].
Proof.
split; first exact: ex_retrieval_contract.
have Hrun := @completed ex_qa_kernel (exec_cell (cell_qa ex_lc))
  (erefl _).
have [db [llm [prompt [q [retr [chain [res [answer [docs H]]]]]]]]] :=
  qa_cell_prints_answer_and_two_sources ex_retrieval_contract Hrun.
case: H => _ [Hretr Hchain Hres] [_ Hanswer _] Hsize Hout.
eexists; exists docs; split; [exact: Hrun | exact: Hsize |].
rewrite Hout; case: Hretr Hchain Hres Hanswer => <- [<-] [<-] [<-].
by [].
Defined.

(** ** More runs against that library *)

Lemma first_print_follows_earlier_runs_witness :
  exists k1 k2,
    [/\ exec_cell (cell_svd5 ex_seed ex_draw ex_svd) ex_kernel = Done tt k1,
        exec_cell (cell_svd5 ex_seed ex_draw ex_svd) k1 = Done tt k2,
        nth (Printed (VNone algR nat) None) (out k1) 1 =
          Printed (VArr2 nat (drawn ex_seed ex_draw 5)) (Some 8%N)
      & nth (Printed (VNone algR nat) None) (out k2) 1 =
          Printed (VArr2 nat (drawn ex_seed ex_draw 5)) (Some 2%N)].
Proof.
have E : ex_svd (drawn ex_seed ex_draw 5) = Ok (1%:M, const_mx 1, 1%:M).
  by [].
have [k1 [R1 _ _ _ _]] := cell_svd5_run ex_kernel E.
have [k2 [R2 _ _ _ _]] := cell_svd5_run k1 E.
have [H1 H2] := first_print_follows_earlier_runs E R1 R2.
by exists k1, k2.
Defined.

Lemma cell_svd10_last_error_is_full_residual_witness :
  exists k' errs,
    [/\ exec_cell (cell_svd10 ex_seed ex_draw ex_svd) ex_kernel = Done tt k',
        ns k' "errors" = Some (VList errs)
      & ns k' "error" = Some (last (VNone algR nat) errs)].
Proof.
have [k' [errs [Hrun Herrs _ _ [Herror _]]]] :=
  @cell_svd10_last_error_is_full_residual algR nat unit ex_seed ex_draw
    ex_svd 1%:M 1%:M (const_mx 1) ex_kernel (erefl _).
by exists k', errs.
Defined.

Definition ex_ranks_kernel : kernel algR nat unit :=
  ex_names [:: ("A", VArr2 nat (1%:M : 'M[algR]_2));
               ("U", VArr2 nat (1%:M : 'M[algR]_2));
               ("S", VArr1 nat (const_mx 1 : 'rV[algR]_2));
               ("Vt", VArr2 nat (1%:M : 'M[algR]_2));
               ("errors", VList [::]);
               ("ranks", VList [:: VInt algR nat 1; VInt algR nat 2])].

Lemma loop_svd10_appends_one_error_per_rank_witness :
  exists k' errs',
    [/\ loop_svd10 ex_ranks_kernel = Done tt k',
        ns k' "errors" = Some (VList errs')
      & size errs' = 2].
Proof.
have [k' [errs' [Hrun Herrs [Hsize _] _ _]]] :=
  @loop_svd10_appends_one_error_per_rank algR nat unit 2 1%:M 1%:M 1%:M
    (const_mx 1) [:: 1; 2]%N [::] ex_ranks_kernel
    (conj (erefl _) (conj (erefl _) (conj (erefl _) (conj (erefl _) I))))
    (erefl _) (erefl _).
by exists k', errs'.
Defined.

Lemma cell_svd5_prints_both_truncations_witness :
  exists k',
    exec_cell (cell_svd5 ex_seed ex_draw ex_svd) ex_kernel = Done tt k' /\
    ns k' "k" = Some (VInt algR nat 3).
Proof.
have [k' [Hrun _ Hk _]] :=
  @cell_svd5_prints_both_truncations algR nat unit ex_seed ex_draw ex_svd
    1%:M 1%:M (const_mx 1) ex_kernel (erefl _).
by exists k'.
Defined.

Lemma cell_svd10_plots_the_recorded_errors_witness :
  exists k' ranks errors,
    [/\ exec_cell (cell_svd10 ex_seed ex_draw ex_svd) ex_kernel = Done tt k',
        ns k' "ranks" = Some ranks
      & ns k' "errors" = Some errors].
Proof.
have [k' [ranks [errors [Hrun Hranks Herrs _]]]] :=
  @cell_svd10_plots_the_recorded_errors algR nat unit ex_seed ex_draw ex_svd
    1%:M 1%:M (const_mx 1) ex_kernel (erefl _).
by exists k', ranks, errors.
Defined.

Lemma rank_notebook_ends_as_cell_svd10_witness :
  exists k1 k2,
    [/\ run_all (rank_notebook nat ex_seed ex_draw ex_svd) ex_kernel = Done tt k1,
        exec_cell (cell_svd10 ex_seed ex_draw ex_svd) ex_kernel = Done tt k2,
        forall x, ns k1 x = ns k2 x
      & out k1 = out k2].
Proof.
have [k1 [k2 [R1 R2 Hns [_ Hout] _]]] :=
  @rank_notebook_ends_as_cell_svd10 algR nat unit ex_seed ex_draw ex_svd
    1%:M 1%:M (const_mx 1) 1%:M 1%:M (const_mx 1) ex_kernel
    (erefl _) (erefl _).
by exists k1, k2.
Defined.

Lemma cell_svd5_after_cell_svd10_witness :
  exists k' errs,
    [/\ run_all [:: cell_svd10 ex_seed ex_draw ex_svd;
                    cell_svd5 ex_seed ex_draw ex_svd] ex_kernel = Done tt k',
        ns k' "A" = Some (VArr2 nat (drawn ex_seed ex_draw 5)),
        ns k' "errors" = Some (VList errs)
      & size errs = 10].
Proof.
have [k' [Hrun [HA _] _ [_ [Herrs _]]]] :=
  @cell_svd5_after_cell_svd10 algR nat unit ex_seed ex_draw ex_svd
    1%:M 1%:M (const_mx 1) 1%:M 1%:M (const_mx 1) ex_kernel
    (erefl _) (erefl _).
by exists k'; eexists; split; [exact: Hrun | exact: HA | exact: Herrs |].
Defined.

(** A library whose loaders return one page of 110 characters, ten times
    the query, which takes 230 bytes. *)
Definition ex_page : string := foldr String.append "" (nseq 10 query_text).

Definition ex_news_lc : langchain algR nat :=
  {| PyPDFLoader := PyPDFLoader ex_lc;
     YoutubeAudioLoader := YoutubeAudioLoader ex_lc;
     OpenAIWhisperParser := OpenAIWhisperParser ex_lc;
     GenericLoader := GenericLoader ex_lc;
     WebBaseLoader := WebBaseLoader ex_lc;
     load := fun _ => Ok (VList [:: VDoc algR nat ex_page [::]]);
     RecursiveCharacterTextSplitter := RecursiveCharacterTextSplitter ex_lc;
     split_documents := split_documents ex_lc;
     HuggingFaceEmbeddings := HuggingFaceEmbeddings ex_lc;
     embed_query := embed_query ex_lc;
     cosine_similarity := cosine_similarity ex_lc;
     Chroma_from_documents := Chroma_from_documents ex_lc;
     similarity_search_with_score := similarity_search_with_score ex_lc;
     BitsAndBytesConfig := BitsAndBytesConfig ex_lc;
     HuggingFacePipeline_from_model_id :=
       HuggingFacePipeline_from_model_id ex_lc;
     PromptTemplate := PromptTemplate ex_lc;
     as_retriever := as_retriever ex_lc;
     RetrievalQA_from_chain_type := RetrievalQA_from_chain_type ex_lc;
     RetrievalQA_call := RetrievalQA_call ex_lc |}.

Lemma web_cell_shows_start_of_first_document_witness :
  (str_len ex_page = 110 /\ String.length ex_page = 230) /\
  exists start k',
    [/\ exec_cell (cell_web ex_news_lc) ex_kernel = Done tt k',
        out k' = [:: Displayed (VStr algR nat start) None],
        String.prefix start ex_page = true
      & str_len start = 100].
Proof.
split; first by [].
have [start [Hrun Hpre Hlen _]] :=
  @web_cell_shows_start_of_first_document algR nat unit ex_news_lc ex_object
    ex_page [::] [::] ex_kernel (erefl _) (erefl _).
exists start; eexists.
split; [exact: Hrun | reflexivity | exact: Hpre | exact: Hlen].
Defined.

Lemma youtube_cell_shows_start_of_first_document_witness :
  exists start k',
    [/\ exec_cell (cell_youtube ex_news_lc) ex_kernel = Done tt k',
        out k' = [:: Displayed (VStr algR nat start) None]
      & start = ex_page].
Proof.
have [start [Hrun _ _ Hall]] :=
  @youtube_cell_shows_start_of_first_document algR nat unit ex_news_lc
    ex_object ex_object ex_object ex_page [::] [::] ex_kernel
    (erefl _) (erefl _) (erefl _) (erefl _).
exists start; eexists.
split; [exact: Hrun | reflexivity | exact: Hall].
Defined.

(** A library whose loaders and searches find nothing and whose chain
    returns its answer without the source documents. *)
Definition ex_empty_lc : langchain algR nat :=
  {| PyPDFLoader := PyPDFLoader ex_lc;
     YoutubeAudioLoader := YoutubeAudioLoader ex_lc;
     OpenAIWhisperParser := OpenAIWhisperParser ex_lc;
     GenericLoader := GenericLoader ex_lc;
     WebBaseLoader := WebBaseLoader ex_lc;
     load := fun _ => Ok (VList [::]);
     RecursiveCharacterTextSplitter := RecursiveCharacterTextSplitter ex_lc;
     split_documents := split_documents ex_lc;
     HuggingFaceEmbeddings := HuggingFaceEmbeddings ex_lc;
     embed_query := embed_query ex_lc;
     cosine_similarity := cosine_similarity ex_lc;
     Chroma_from_documents := Chroma_from_documents ex_lc;
     similarity_search_with_score := fun _ _ => Ok (VList [::]);
     BitsAndBytesConfig := BitsAndBytesConfig ex_lc;
     HuggingFacePipeline_from_model_id :=
       HuggingFacePipeline_from_model_id ex_lc;
     PromptTemplate := PromptTemplate ex_lc;
     as_retriever := as_retriever ex_lc;
     RetrievalQA_from_chain_type := RetrievalQA_from_chain_type ex_lc;
     RetrievalQA_call := fun _ q =>
       Ok (VDict [:: ("query", q); ("result", VStr algR nat "answer")]) |}.

Lemma first_item_needs_a_nonempty_list_witness :
  fails_with (cell_web ex_empty_lc) ex_kernel IndexError
    [:: ("news_docs", VList [::]); ("loader", ex_object);
        ("url", VStr algR nat news_url)].
Proof.
have [H _ _] := @first_item_needs_a_nonempty_list algR nat unit ex_empty_lc
  ex_kernel.
exact: (H ex_object (erefl _) (erefl _)).
Defined.

Lemma qa_cell_stops_at_a_missing_key_witness :
  raised (exec_cell (cell_qa ex_empty_lc) ex_qa_kernel) =
  Some (KeyError "source_documents").
Proof.
have [_ H] :=
  @qa_cell_stops_at_a_missing_key algR nat unit ex_empty_lc
    ex_object ex_object ex_object (VStr algR nat query_text)
    (VObj algR 2%N) (VObj algR 2%N)
    [:: ("query", VDict [:: ("query", VStr algR nat query_text)]);
        ("result", VStr algR nat "answer")]
    ex_qa_kernel (And4 (erefl _) (erefl _) (erefl _) (erefl _))
    (erefl _) (erefl _) (erefl _).
by rewrite (H _ (erefl _) (erefl _)).
Defined.

Lemma cells_need_the_names_of_earlier_cells_witness :
  fails_with (cell_split ex_lc) ex_kernel (NameError "news_docs")
    [:: ("text_splitter", ex_object)] /\
  fails_with (cell_store ex_lc) ex_kernel (NameError "texts_chunks") [::].
Proof.
have [Hsplit Hstore _] :=
  @cells_need_the_names_of_earlier_cells algR nat unit ex_lc ex_kernel.
by split; [exact: (Hsplit ex_object) | exact: Hstore].
Defined.

Lemma pipeline_reads_only_what_it_assigned_witness :
  exists k1' k2',
    [/\ run_all (drop 2 (rag_notebook unit ex_lc)) ex_kernel = Done tt k1',
        run_all (drop 2 (rag_notebook unit ex_lc)) ex_qa_kernel = Done tt k2',
        out k1' = out k2'
      & ns k1' "result" = ns k2' "result"].
Proof.
have R1 := @completed ex_kernel
  (run_all (drop 2 (rag_notebook unit ex_lc))) (erefl _).
have [Hdone _] := @pipeline_reads_only_what_it_assigned algR nat unit ex_lc
  ex_kernel ex_qa_kernel (erefl _).
have [k2' [R2 Hout Hns]] := Hdone _ R1.
by eexists; exists k2'; split; [exact: R1 | exact: R2 | exact: Hout | apply: Hns].
Defined.

Lemma answer_ignores_pdf_and_youtube_cells_witness :
  exists k1 k2,
    [/\ run_all (rag_notebook unit ex_lc) ex_kernel = Done tt k1,
        run_all (drop 2 (rag_notebook unit ex_lc)) ex_kernel = Done tt k2
      & ns k1 "result" = ns k2 "result"].
Proof.
have Hrun := @completed ex_kernel (run_all (rag_notebook unit ex_lc))
  (erefl _).
have [k2 [R2 _ Hns]] := answer_ignores_pdf_and_youtube_cells Hrun.
by eexists; exists k2; split; [exact: Hrun | exact: R2 | apply: Hns].
Defined.

Local Close Scope string_scope.
